(** * Coval example scripts: transcript mapping, run submission and polling

    A shallow embedding of [upload-conversations/vapi_upload.py] and
    [launch-runs/launch_run.py].  Python values are modelled dynamically
    (the scripts work on decoded JSON), dictionaries are finite maps,
    [float] is IEEE binary64, and the effects of a script (console output,
    HTTP requests, sleeping) are recorded as a chronological trace. *)

From Stdlib Require Import ZArith Lia.
From Stdlib Require Import SpecFloat.
From stdpp Require Import gmap strings list fin_maps.

Set Warnings "-register-all".
Open Scope Z_scope.
Open Scope string_scope.

(** ** Python values *)

Module Py.

(** Python's [float]: IEEE 754 binary64, round to nearest even. *)
Abbreviation float := spec_float.
Definition prec : Z := 53.
Definition emax : Z := 1024.

Definition fadd : float -> float -> float := SFadd prec emax.
Definition fdiv : float -> float -> float := SFdiv prec emax.

(** The float nearest to [m * 2^e]. *)
Definition float_lit (m e : Z) : float := binary_normalize prec emax m e false.
Definition float_of_Z (n : Z) : float := float_lit n 0.

Definition fzero : float := S754_zero false.

Definition float_is_zero (f : float) : bool :=
  match f with S754_zero _ => true | _ => false end.
Definition float_is_inf (f : float) : bool :=
  match f with S754_infinity _ => true | _ => false end.
Definition float_is_nan (f : float) : bool :=
  match f with S754_nan => true | _ => false end.

(** Numeric equality of floats ([==] in Python). *)
Definition feqb : float -> float -> bool := SFeqb.

(** Values obtained by decoding JSON, and the values the scripts build. *)
Inductive pyval :=
| PNone
| PBool (b : bool)
| PInt (n : Z)
| PFloat (f : float)
| PStr (s : string)
| PList (l : list pyval)
| PDict (d : gmap string pyval).

Abbreviation dict := (gmap string pyval).

Inductive exn :=
| TypeError
| AttributeError
| KeyError
| OverflowError
| ZeroDivisionError
| Timeout                          (* requests.exceptions.Timeout *)
| RequestException (msg : string)  (* any other requests exception *)
| SystemExit (code : Z).

(** [bool(v)] *)
Definition truthy (v : pyval) : bool :=
  match v with
  | PNone => false
  | PBool b => b
  | PInt n => negb (Z.eqb n 0)
  | PFloat f => negb (float_is_zero f)
  | PStr s => negb (String.eqb s "")
  | PList l => match l with [] => false | _ => true end
  | PDict d => match map_to_list d with [] => false | _ => true end
  end.

(** [v == s] for a string literal [s] *)
Definition eq_str (v : pyval) (s : string) : bool :=
  match v with
  | PStr s' => String.eqb s' s
  | _ => false
  end.

(** [a or b] *)
Definition py_or (a b : pyval) : pyval := if truthy a then a else b.

(** A piece of an f-string: literal text, or a value formatted by [str()]. *)
Inductive piece :=
| Lit (s : string)
| Fmt (v : pyval).

Abbreviation fstring := (list piece).

Definition nl : string := String (Ascii.ascii_of_nat 10) EmptyString.

End Py.
Export Py.

(** ** Effects: a trace of what the process does, and how a call ends *)

Inductive http_method := GET | POST.

Inductive event :=
| Print (line : fstring)
| Request (method : http_method) (url : fstring) (body : option pyval)
          (headers : gmap string fstring) (timeout : Z)
| Sleep (seconds : Z).

(** How a call ends: it returns, it raises, or it is still blocked in a
    request because the network has delivered nothing (yet). *)
Inductive outcome (A : Type) :=
| Done (a : A)
| Raised (e : exn)
| Waiting.
Arguments Done {A} a.
Arguments Raised {A} e.
Arguments Waiting {A}.

Record io (A : Type) := IO { trace : list event; result : outcome A }.
Arguments IO {A} trace result.
Arguments trace {A} _.
Arguments result {A} _.

Definition ret {A} (a : A) : io A := IO [] (Done a).
Definition raise {A} (e : exn) : io A := IO [] (Raised e).
Definition emit (e : event) : io unit := IO [e] (Done tt).
Definition print (line : fstring) : io unit := emit (Print line).

Definition bind {A B} (m : io A) (k : A -> io B) : io B :=
  match result m with
  | Done a => IO (trace m ++ trace (k a)) (result (k a))
  | Raised e => IO (trace m) (Raised e)
  | Waiting => IO (trace m) Waiting
  end.

(** [try: m  except ...: h e]; a handler re-raises what it does not catch. *)
Definition try_except {A} (m : io A) (h : exn -> io A) : io A :=
  match result m with
  | Raised e => IO (trace m ++ trace (h e)) (result (h e))
  | _ => m
  end.

#[global] Instance io_ret : MRet io := @ret.
#[global] Instance io_bind : MBind io := fun A B k m => bind m k.

(** ** Operations on Python values that may raise *)

(** [v.get(k, dflt)]: only dictionaries have [get]. *)
Definition py_get (v : pyval) (k : string) (dflt : pyval) : io pyval :=
  match v with
  | PDict d => ret (default dflt (d !! k))
  | _ => raise AttributeError
  end.

(** [k in v] for a string [k] *)
Definition py_contains (k : string) (v : pyval) : io bool :=
  match v with
  | PDict d => ret (bool_decide (is_Some (d !! k)))
  | PList l => ret (existsb (fun x => eq_str x k) l)
  | PStr s => ret (bool_decide (is_Some (String.index 0 k s)))
  | _ => raise TypeError
  end.

(** [v[k]] for a string [k] *)
Definition py_getitem (v : pyval) (k : string) : io pyval :=
  match v with
  | PDict d => match d !! k with Some x => ret x | None => raise KeyError end
  | _ => raise TypeError
  end.

(** Conversion of a number to [float], as the arithmetic operators do
    when the other operand is a float. *)
Definition to_float (v : pyval) : io float :=
  match v with
  | PBool b => ret (float_of_Z (if b then 1 else 0))
  | PInt n =>
      let f := float_of_Z n in
      if float_is_inf f then raise OverflowError else ret f
  | PFloat f => ret f
  | _ => raise TypeError
  end.

(** [a / b] where [b] is a float *)
Definition py_truediv (a : pyval) (b : float) : io float :=
  x ← to_float a;
  if float_is_zero b then raise ZeroDivisionError else ret (fdiv x b).

(** [a + b] where [b] is a float *)
Definition py_add (a : pyval) (b : float) : io float :=
  x ← to_float a;
  ret (fadd x b).

(** [v[:n]]; a character of a string is a code point, modelled by [ascii]. *)
Definition py_slice (v : pyval) (n : nat) : io pyval :=
  match v with
  | PStr s => ret (PStr (String.substring 0 n s))
  | PList l => ret (PList (take n l))
  | _ => raise TypeError
  end.

(** [len(v)] *)
Definition py_len (v : pyval) : io Z :=
  match v with
  | PStr s => ret (Z.of_nat (String.length s))
  | PList l => ret (Z.of_nat (length l))
  | PDict d => ret (Z.of_nat (size d))
  | _ => raise TypeError
  end.

(** The items a [for] loop visits. *)
Definition py_iter (v : pyval) : io (list pyval) :=
  match v with
  | PList l => ret l
  | PStr s => ret ((fun c => PStr (String c EmptyString)) <$> String.list_ascii_of_string s)
  | PDict d => ret ((fun kv => PStr kv.1) <$> map_to_list d)
  | _ => raise TypeError
  end.


(** ** The [requests] library, against a scripted network *)

Record response := Response { status_code : Z; text : string; json : option pyval }.

(** What the network answers to one request. *)
Inductive reply :=
| Answer (r : response)
| TimedOut                 (* raises requests.exceptions.Timeout *)
| Failed (msg : string).   (* raises another RequestException, e.g. ConnectionError *)

(** [requests.get] / [requests.post]: the request is sent, then the call
    returns the response, raises, or blocks when nothing is delivered. *)
Definition send (method : http_method) (url : fstring) (body : option pyval)
    (headers : gmap string fstring) (timeout : Z) (net : option reply) : io response :=
  emit (Request method url body headers timeout);;
  match net with
  | Some (Answer r) => ret r
  | Some TimedOut => raise Timeout
  | Some (Failed msg) => raise (RequestException msg)
  | None => IO [] Waiting
  end.

(** [response.json()]; a body that is not JSON raises
    [requests.exceptions.JSONDecodeError], a [RequestException]. *)
Definition response_json (r : response) : io pyval :=
  match json r with
  | Some v => ret v
  | None => raise (RequestException "JSONDecodeError")
  end.

(** [sys.exit(code)] *)
Definition sys_exit {A} (code : Z) : io A := raise (SystemExit code).

(** The exit status of the process running [main]. *)
Definition exit_status {A} (o : outcome A) : option Z :=
  match o with
  | Done _ => Some 0
  | Raised (SystemExit c) => Some c
  | Raised _ => Some 1
  | Waiting => None
  end.

Definition is_request (e : event) : bool :=
  match e with Request _ _ _ _ _ => true | _ => false end.

(** The requests a trace sends, in order. *)
Definition requests_of (t : list event) : list event := List.filter is_request t.

(** ** upload-conversations/vapi_upload.py *)

Module VapiUpload.

Record config := Config {
  VAPI_API_KEY : string;
  COVAL_API_KEY : string;
  CALL_ID : string;
  METRIC_IDS : list string
}.

Definition API_TIMEOUT : Z := 30.
Definition VAPI_API_URL : string := "https://api.vapi.ai/call".
Definition COVAL_API_URL : string := "https://api.coval.dev/v1/conversations:submit".

Definition get_vapi_call (cfg : config) (call_id : string) (net : option reply) : io pyval :=
  print [Lit "Fetching Vapi call details for ID: "; Lit call_id];;
  let headers : gmap string fstring :=
    {[ "Authorization" := [Lit "Bearer "; Lit (VAPI_API_KEY cfg)];
       "Content-Type" := [Lit "application/json"] ]} in
  try_except
    (response ← send GET [Lit VAPI_API_URL; Lit "/"; Lit call_id] None headers API_TIMEOUT net;
     if Z.eqb (status_code response) 200 then
       call_data ← response_json response;
       print [Lit "Call data retrieved successfully"];;
       st ← py_get call_data "status" PNone;
       print [Lit "Status: "; Fmt st];;
       msgs ← py_get call_data "messages" (PList []);
       n ← py_len msgs;
       print [Lit "Messages: "; Fmt (PInt n); Lit " found"];;
       ret call_data
     else
       print [Lit "Failed to fetch Vapi call: "; Fmt (PInt (status_code response))];;
       print [Lit "Response: "; Lit (text response)];;
       ret PNone)
    (fun e =>
       match e with
       | Timeout =>
           print [Lit "Error: Request timed out after "; Fmt (PInt API_TIMEOUT); Lit " seconds"];;
           ret PNone
       | RequestException msg =>
           print [Lit "Error fetching Vapi call: "; Lit msg];;
           ret PNone
       | _ => raise e
       end).

(** The role reversal of the loop body: [None] is the [else] branch. *)
Definition coval_role_of (vapi_role : pyval) : option string :=
  if eq_str vapi_role "user" then Some "assistant"
  else if eq_str vapi_role "bot" then Some "user"
  else if eq_str vapi_role "system" then Some "system"
  else None.

(** One iteration of the [for] loop of [transform_vapi_transcript]:
    [None] when the message is skipped ([continue]), else the entry that
    is appended to [transcript]. *)
Definition transform_message (idx : Z) (msg : pyval) : io (option pyval) :=
  vapi_role ← py_get msg "role" (PStr "");
  message_text ← py_get msg "message" (PStr "");
  match coval_role_of vapi_role with
  | None =>
      print [Lit "Unknown role '"; Fmt vapi_role; Lit "' in message ";
             Fmt (PInt idx); Lit ", skipping"];;
      ret None
  | Some coval_role =>
      start_time ← py_get msg "secondsFromStart" (PFloat fzero);
      duration_ms ← py_get msg "duration" (PInt 0);
      duration_seconds ← py_truediv duration_ms (float_of_Z 1000);
      end_time ← py_add start_time duration_seconds;
      let entry : dict :=
        {[ "role" := PStr coval_role;
           "content" := message_text;
           "start_time" := start_time;
           "end_time" := PFloat end_time ]} in
      has_time ← py_contains "time" msg;
      entry ← (if has_time : bool
               then t ← py_getitem msg "time"; ret (<["timestamp" := t]> entry)
               else ret entry);
      shown ← py_slice message_text 50;
      print [Lit "["; Fmt (PInt (idx + 1)); Lit "] "; Fmt vapi_role; Lit " -> ";
             Lit coval_role; Lit ": "; Fmt shown; Lit "..."];;
      ret (Some (PDict entry))
  end.

(** The loop over [enumerate(vapi_messages)], with the list it appends to. *)
Fixpoint transform_loop (idx : Z) (msgs : list pyval) (transcript : list pyval)
    : io (list pyval) :=
  match msgs with
  | [] => ret transcript
  | msg :: rest =>
      r ← transform_message idx msg;
      match r with
      | None => transform_loop (idx + 1) rest transcript
      | Some entry => transform_loop (idx + 1) rest (transcript ++ [entry])
      end
  end.

Definition transform_vapi_transcript (vapi_messages : pyval) : io (list pyval) :=
  print [Lit nl; Lit "Transforming Vapi transcript..."];;
  msgs ← py_iter vapi_messages;
  transcript ← transform_loop 0 msgs [];
  print [Lit "Transformed "; Fmt (PInt (Z.of_nat (length transcript))); Lit " messages"];;
  ret transcript.

(** [upload_to_coval]; [now] is [datetime.utcnow().isoformat()].  The
    dictionary under ["metadata"] is kept in a variable of its own and put
    into the payload when the request is sent. *)
Definition upload_to_coval (cfg : config) (now : string) (call_data : pyval)
    (transcript : list pyval) (net : option reply) : io pyval :=
  print [Lit nl; Lit "Uploading to Coval..."];;
  stereo ← py_get call_data "stereoRecordingUrl" PNone;
  recording ← py_get call_data "recordingUrl" PNone;
  let audio_url := py_or stereo recording in
  id ← py_get call_data "id" PNone;
  started ← py_get call_data "startedAt" PNone;
  created ← py_get call_data "createdAt" PNone;
  status ← py_get call_data "status" PNone;
  type ← py_get call_data "type" PNone;
  assistant ← py_get call_data "assistantId" PNone;
  let payload : dict :=
    {[ "transcript" := PList transcript;
       "external_conversation_id" := id;
       "occurred_at" := py_or (py_or started created) (PStr now) ]} in
  let metadata : dict :=
    {[ "platform" := PStr "vapi";
       "vapi_call_id" := id;
       "status" := status;
       "type" := type;
       "assistant_id" := assistant ]} in
  payload ← (if truthy audio_url
             then shown ← py_slice audio_url 60;
                  print [Lit "Audio URL: "; Fmt shown; Lit "..."];;
                  print [Lit "Transcript: "; Fmt (PInt (Z.of_nat (length transcript)));
                         Lit " messages with timing"];;
                  ret (<["audio_url" := audio_url]> payload)
             else ret payload);
  has_customer ← py_contains "customer" call_data;
  metadata ← (if has_customer : bool
              then customer ← py_getitem call_data "customer";
                   number ← py_get customer "number" PNone;
                   ret (<["customer_number" := number]> metadata)
              else ret metadata);
  has_reason ← py_contains "endedReason" call_data;
  metadata ← (if has_reason : bool
              then reason ← py_getitem call_data "endedReason";
                   ret (<["ended_reason" := reason]> metadata)
              else ret metadata);
  let payload : dict :=
    match METRIC_IDS cfg with
    | [] => payload
    | ids => <["metrics" := PList (PStr <$> ids)]> payload
    end in
  let payload : dict := <["metadata" := PDict metadata]> payload in
  let headers : gmap string fstring :=
    {[ "X-API-Key" := [Lit (COVAL_API_KEY cfg)];
       "Content-Type" := [Lit "application/json"] ]} in
  try_except
    (response ← send POST [Lit COVAL_API_URL] (Some (PDict payload)) headers API_TIMEOUT net;
     if Z.eqb (status_code response) 200 then
       result ← response_json response;
       conversation ← py_get result "conversation" (PDict ∅);
       conversation_id ← py_get conversation "conversation_id" PNone;
       conversation' ← py_get result "conversation" (PDict ∅);
       status ← py_get conversation' "status" PNone;
       print [Lit "Successfully uploaded to Coval"];;
       print [Lit "Conversation ID: "; Fmt conversation_id];;
       print [Lit "Status: "; Fmt status];;
       print [Lit "View at: https://app.coval.dev/conversations/"; Fmt conversation_id];;
       ret result
     else
       print [Lit "Failed to upload to Coval: "; Fmt (PInt (status_code response))];;
       print [Lit "Response: "; Lit (text response)];;
       ret PNone)
    (fun e =>
       match e with
       | Timeout =>
           print [Lit "Error: Request timed out after "; Fmt (PInt API_TIMEOUT); Lit " seconds"];;
           ret PNone
       | RequestException msg =>
           print [Lit "Error uploading to Coval: "; Lit msg];;
           ret PNone
       | _ => raise e
       end).

(** [if c: print(line); sys.exit(1)] *)
Definition exit_if (c : bool) (line : fstring) : io unit :=
  if c then print line;; sys_exit 1 else ret tt.

(** [main]; [net] lists what the network answers to the requests the
    script sends, in order. *)
Definition main (cfg : config) (now : string) (net : list reply) : io unit :=
  exit_if (String.eqb (VAPI_API_KEY cfg) "your_vapi_api_key")
    [Lit "Error: Please update VAPI_API_KEY in the configuration section"];;
  exit_if (String.eqb (COVAL_API_KEY cfg) "your_coval_api_key")
    [Lit "Error: Please update COVAL_API_KEY in the configuration section"];;
  exit_if (String.eqb (CALL_ID cfg) "your_vapi_call_id")
    [Lit "Error: Please update CALL_ID in the configuration section"];;
  call_data ← get_vapi_call cfg (CALL_ID cfg) (net !! 0%nat);
  (if truthy call_data then ret tt else sys_exit 1);;
  vapi_messages ← py_get call_data "messages" (PList []);
  transcript ← (if truthy vapi_messages
                then transform_vapi_transcript vapi_messages
                else print [Lit "Warning: No messages found in Vapi call"];; ret []);
  result ← upload_to_coval cfg now call_data transcript (net !! 1%nat);
  if truthy result then ret tt else print [Lit "Upload failed"];; sys_exit 1.

End VapiUpload.

(** ** launch-runs/launch_run.py *)

Module LaunchRun.

Record config := Config {
  COVAL_API_KEY : string;
  AGENT_ID : string;
  PERSONA_ID : string;
  TEST_SET_ID : string;
  METRIC_IDS : list string;
  ITERATION_COUNT : Z;
  CONCURRENCY : Z
}.

Definition API_TIMEOUT : Z := 30.
Definition RUNS_API_URL : string := "https://api.coval.dev/v1/runs".
Definition POLL_INTERVAL_SECONDS : Z := 5.

Definition headers_of (cfg : config) : gmap string fstring :=
  {[ "X-API-Key" := [Lit (COVAL_API_KEY cfg)];
     "Content-Type" := [Lit "application/json"] ]}.

Definition launch_run (cfg : config) (agent_id persona_id test_set_id : string)
    (metric_ids : list string) (iteration_count concurrency : Z)
    (net : option reply) : io pyval :=
  print [Lit "Launching simulation run..."];;
  print [Lit "Agent ID: "; Lit agent_id];;
  print [Lit "Persona ID: "; Lit persona_id];;
  print [Lit "Test Set ID: "; Lit test_set_id];;
  let payload : dict :=
    {[ "agent_id" := PStr agent_id;
       "persona_id" := PStr persona_id;
       "test_set_id" := PStr test_set_id;
       "options" := PDict {[ "iteration_count" := PInt iteration_count;
                             "concurrency" := PInt concurrency ]} ]} in
  let payload : dict :=
    match metric_ids with
    | [] => payload
    | ids => <["metric_ids" := PList (PStr <$> ids)]> payload
    end in
  try_except
    (response ← send POST [Lit RUNS_API_URL] (Some (PDict payload)) (headers_of cfg)
                  API_TIMEOUT net;
     if Z.eqb (status_code response) 200 then
       result ← response_json response;
       run ← py_get result "run" (PDict ∅);
       run_id ← py_get run "run_id" PNone;
       status ← py_get run "status" PNone;
       create_time ← py_get run "create_time" PNone;
       print [Lit nl; Lit "Run launched successfully"];;
       print [Lit "Run ID: "; Fmt run_id];;
       print [Lit "Status: "; Fmt status];;
       print [Lit "Created: "; Fmt create_time];;
       print [Lit "View at: https://app.coval.dev/runs/"; Fmt run_id];;
       ret run_id
     else
       print [Lit nl; Lit "Failed to launch run: "; Fmt (PInt (status_code response))];;
       print [Lit "Response: "; Lit (text response)];;
       ret PNone)
    (fun e =>
       match e with
       | Timeout =>
           print [Lit nl; Lit "Error: Request timed out after "; Fmt (PInt API_TIMEOUT);
                  Lit " seconds"];;
           ret PNone
       | RequestException msg =>
           print [Lit nl; Lit "Error launching run: "; Lit msg];;
           ret PNone
       | _ => raise e
       end).

Definition get_run_status (cfg : config) (run_id : pyval) (net : option reply) : io pyval :=
  try_except
    (response ← send GET [Lit RUNS_API_URL; Lit "/"; Fmt run_id] None (headers_of cfg)
                  API_TIMEOUT net;
     if Z.eqb (status_code response) 200 then
       result ← response_json response;
       run ← py_get result "run" (PDict ∅);
       status ← py_get run "status" PNone;
       ret status
     else
       print [Lit "Failed to get run status: "; Fmt (PInt (status_code response))];;
       ret PNone)
    (fun e =>
       match e with
       | Timeout =>
           print [Lit "Error: Request timed out after "; Fmt (PInt API_TIMEOUT); Lit " seconds"];;
           ret PNone
       | RequestException msg =>
           print [Lit "Error getting run status: "; Lit msg];;
           ret PNone
       | _ => raise e
       end).

(** [status in ["COMPLETED", "FAILED", "CANCELLED"]] *)
Definition is_terminal (status : pyval) : bool :=
  existsb (eq_str status) ["COMPLETED"; "FAILED"; "CANCELLED"].

(** The [while True] loop of [main].  Each iteration sends one request, so
    the loop is defined by recursion on the replies still to come; when
    they are used up the process is blocked in its next request. *)
Fixpoint monitor (cfg : config) (run_id : pyval) (net : list reply) : io unit :=
  match net with
  | [] => get_run_status cfg run_id None;; ret tt
  | r :: net' =>
      status ← get_run_status cfg run_id (Some r);
      if truthy status then
        print [Lit "Current status: "; Fmt status];;
        if is_terminal status then
          print [Lit nl; Lit "Run finished with status: "; Fmt status]
        else
          emit (Sleep POLL_INTERVAL_SECONDS);;
          monitor cfg run_id net'
      else ret tt
  end.

Definition exit_if (c : bool) (line : fstring) : io unit :=
  if c then print line;; sys_exit 1 else ret tt.

Definition main (cfg : config) (net : list reply) : io unit :=
  exit_if (String.eqb (COVAL_API_KEY cfg) "your_coval_api_key")
    [Lit "Error: Please update COVAL_API_KEY"];;
  exit_if (String.eqb (AGENT_ID cfg) "your_agent_id")
    [Lit "Error: Please update AGENT_ID"];;
  exit_if (String.eqb (PERSONA_ID cfg) "your_persona_id")
    [Lit "Error: Please update PERSONA_ID"];;
  exit_if (String.eqb (TEST_SET_ID cfg) "your_test_set_id")
    [Lit "Error: Please update TEST_SET_ID"];;
  run_id ← launch_run cfg (AGENT_ID cfg) (PERSONA_ID cfg) (TEST_SET_ID cfg)
             (METRIC_IDS cfg) (ITERATION_COUNT cfg) (CONCURRENCY cfg) (head net);
  (if truthy run_id then ret tt else print [Lit "Failed to launch run"];; sys_exit 1);;
  print [Lit nl; Lit "Monitoring run status..."];;
  monitor cfg run_id (tail net).

End LaunchRun.

(** ** Vocabulary of the specification *)

Section MapperVocabulary.
Import VapiUpload.

(** The float a number stands for, when the conversion does not raise. *)
Definition number_value (v : pyval) : option float :=
  match v with
  | PBool b => Some (float_of_Z (if b then 1 else 0))
  | PInt n => let f := float_of_Z n in if float_is_inf f then None else Some f
  | PFloat f => Some f
  | _ => None
  end.

Definition sliceable (v : pyval) : bool :=
  match v with PStr _ | PList _ => true | _ => false end.

(** The fields of a message record, with the defaults of the loop body. *)
Definition role_of (d : dict) : pyval := default (PStr "") (d !! "role").
Definition message_of (d : dict) : pyval := default (PStr "") (d !! "message").
Definition offset_of (d : dict) : pyval := default (PFloat fzero) (d !! "secondsFromStart").
Definition duration_of (d : dict) : pyval := default (PInt 0) (d !! "duration").

(** A message whose role is in the mapping table. *)
Definition recognised (msg : pyval) : bool :=
  match msg with
  | PDict d => bool_decide (is_Some (coval_role_of (role_of d)))
  | _ => false
  end.

(** A message record: a dictionary whose text is a string (or a list) and
    whose timing fields, when present, are numbers a float can hold. *)
Definition well_typed (msg : pyval) : bool :=
  match msg with
  | PDict d =>
      sliceable (message_of d)
      && bool_decide (is_Some (number_value (offset_of d)))
      && bool_decide (is_Some (number_value (duration_of d)))
  | _ => false
  end.

(** The entry the loop body builds from its local variables. *)
Definition entry_for (d : dict) (coval_role : string) (start duration : float) : dict :=
  let entry : dict :=
    {[ "role" := PStr coval_role;
       "content" := message_of d;
       "start_time" := offset_of d;
       "end_time" := PFloat (fadd start (fdiv duration (float_of_Z 1000))) ]} in
  match d !! "time" with
  | Some t => <["timestamp" := t]> entry
  | None => entry
  end.

(** A message record as the mapper expects it: a dictionary, well typed
    when its role is in the table (the other fields of a message that is
    skipped are never looked at). *)
Definition message_record (msg : pyval) : Prop :=
  (exists d, msg = PDict d) /\ (recognised msg = true -> well_typed msg = true).

(** The entry that corresponds to a message, whatever its position. *)
Definition translates_to (msg entry : pyval) : Prop :=
  forall idx, result (transform_message idx msg) = Done (Some entry).

(** The three messages of the example, and the two entries expected. *)
Definition example_messages : list pyval :=
  [ PDict {[ "role" := PStr "user"; "message" := PStr "hi";
             "secondsFromStart" := PFloat (float_lit 1 0); "duration" := PInt 500 ]};
    PDict {[ "role" := PStr "bot"; "message" := PStr "hello";
             "secondsFromStart" := PFloat (float_lit 2 0); "duration" := PInt 1000 ]};
    PDict {[ "role" := PStr "alien"; "message" := PStr "?" ]} ].

Definition example_transcript : list pyval :=
  [ PDict {[ "role" := PStr "assistant"; "content" := PStr "hi";
             "start_time" := PFloat (float_lit 1 0);
             "end_time" := PFloat (float_lit 3 (-1)) ]};
    PDict {[ "role" := PStr "user"; "content" := PStr "hello";
             "start_time" := PFloat (float_lit 2 0);
             "end_time" := PFloat (float_lit 3 0) ]} ].

(** The timing of an entry, read off the message it comes from. *)
Definition timed_from (msg entry : pyval) : Prop :=
  exists d e s dur,
    msg = PDict d /\ entry = PDict e /\
    number_value (offset_of d) = Some s /\
    number_value (duration_of d) = Some dur /\
    e !! "start_time" = Some (offset_of d) /\
    e !! "end_time" = Some (PFloat (fadd s (fdiv dur (float_of_Z 1000)))).

End MapperVocabulary.

Section LauncherVocabulary.
Import LaunchRun.

(** A 200 response whose JSON body holds the resource [run] under "run". *)
Definition carries_run (r : response) (run : dict) : Prop :=
  status_code r = 200 /\
  exists body, json r = Some (PDict body) /\ body !! "run" = Some (PDict run).

(** A reply that makes the request fail: a timeout, a network error, or a
    response whose status is not 200. *)
Definition failed (r : reply) : Prop :=
  match r with
  | Answer resp => status_code resp <> 200
  | TimedOut | Failed _ => True
  end.

(** The response the example endpoint gives for a run. *)
Definition run_response (run_id status : string) : response :=
  Response 200 ""
    (Some (PDict {[ "run" := PDict {[ "run_id" := PStr run_id; "status" := PStr status ]} ]})).

Definition example_config : config :=
  Config "key" "agent" "persona" "testset" [] 1 1.

(** The request one status query sends. *)
Definition query (cfg : config) (run_id : pyval) : event :=
  Request GET [Lit RUNS_API_URL; Lit "/"; Fmt run_id] None (headers_of cfg) API_TIMEOUT.

(** What [get_run_status] prints when its request fails. *)
Definition failure_report (r : reply) : event :=
  match r with
  | Answer resp => Print [Lit "Failed to get run status: "; Fmt (PInt (status_code resp))]
  | TimedOut =>
      Print [Lit "Error: Request timed out after "; Fmt (PInt API_TIMEOUT); Lit " seconds"]
  | Failed msg => Print [Lit "Error getting run status: "; Lit msg]
  end.

(** A successful status query: a 200 response whose run has [status]. *)
Definition status_reply (r : reply) (status : pyval) : Prop :=
  exists resp run,
    r = Answer resp /\ carries_run resp run /\ run !! "status" = Some status.

(** A status after which polling goes on. *)
Definition continuing (status : pyval) : Prop :=
  truthy status = true /\ is_terminal status = false.

(** One full iteration of the loop: query, report, sleep. *)
Definition iteration (cfg : config) (run_id status : pyval) : list event :=
  [ query cfg run_id;
    Print [Lit "Current status: "; Fmt status];
    Sleep POLL_INTERVAL_SECONDS ].

(** The last iteration, at a terminal status. *)
Definition final_iteration (cfg : config) (run_id status : pyval) : list event :=
  [ query cfg run_id;
    Print [Lit "Current status: "; Fmt status];
    Print [Lit nl; Lit "Run finished with status: "; Fmt status] ].

(** The configuration has been filled in: [main] passes its checks. *)
Definition configured (cfg : config) : Prop :=
  COVAL_API_KEY cfg <> "your_coval_api_key" /\
  AGENT_ID cfg <> "your_agent_id" /\
  PERSONA_ID cfg <> "your_persona_id" /\
  TEST_SET_ID cfg <> "your_test_set_id".

(** A mocked status endpoint: a 200 response whose run has [status]. *)
Definition status_response (status : string) : response :=
  Response 200 "" (Some (PDict {[ "run" := PDict {[ "status" := PStr status ]} ]})).

(** The iterations that go on, one per status. *)
Definition iterations (cfg : config) (run_id : pyval) (sts : list pyval) : list event :=
  concat (iteration cfg run_id <$> sts).

End LauncherVocabulary.

(** A required identifier or key of launch_run.py is still a placeholder. *)
Definition launch_run_placeholder (cfg : LaunchRun.config) : Prop :=
  LaunchRun.COVAL_API_KEY cfg = "your_coval_api_key" \/
  LaunchRun.AGENT_ID cfg = "your_agent_id" \/
  LaunchRun.PERSONA_ID cfg = "your_persona_id" \/
  LaunchRun.TEST_SET_ID cfg = "your_test_set_id".

(** A required identifier or key of vapi_upload.py is still a placeholder. *)
Definition vapi_upload_placeholder (cfg : VapiUpload.config) : Prop :=
  VapiUpload.VAPI_API_KEY cfg = "your_vapi_api_key" \/
  VapiUpload.COVAL_API_KEY cfg = "your_coval_api_key" \/
  VapiUpload.CALL_ID cfg = "your_vapi_call_id".

(** The process printed one line, sent nothing, and exited with status 1. *)
Definition halted_before_network (out : io unit) : Prop :=
  (exists line, trace out = [Print line]) /\
  requests_of (trace out) = [] /\
  exit_status (result out) = Some 1.

(** ** Vocabulary for the rest of the two scripts *)

Definition is_print (e : event) : bool :=
  match e with Print _ => true | _ => false end.

(** What the process does to the outside world: its requests and sleeps. *)
Definition actions_of (t : list event) : list event :=
  List.filter (fun e => negb (is_print e)) t.

(** The JSON bodies of the requests a trace sends, in order. *)
Definition bodies_of (t : list event) : list pyval :=
  omap (fun e => match e with Request _ _ (Some b) _ _ => Some b | _ => None end) t.

Section LaunchRunVocabulary.
Import LaunchRun.

(** The JSON body [launch_run] posts. *)
Definition launch_payload (agent_id persona_id test_set_id : string)
    (metric_ids : list string) (iteration_count concurrency : Z) : dict :=
  let payload : dict :=
    {[ "agent_id" := PStr agent_id;
       "persona_id" := PStr persona_id;
       "test_set_id" := PStr test_set_id;
       "options" := PDict {[ "iteration_count" := PInt iteration_count;
                             "concurrency" := PInt concurrency ]} ]} in
  match metric_ids with
  | [] => payload
  | ids => <["metric_ids" := PList (PStr <$> ids)]> payload
  end.

(** The request [launch_run] sends. *)
Definition launch_request (cfg : config) (agent_id persona_id test_set_id : string)
    (metric_ids : list string) (iteration_count concurrency : Z) : event :=
  Request POST [Lit RUNS_API_URL]
    (Some (PDict (launch_payload agent_id persona_id test_set_id metric_ids
                    iteration_count concurrency)))
    (headers_of cfg) API_TIMEOUT.

(** [n + 1] status queries with a sleep between two of them. *)
Definition polling (cfg : config) (run_id : pyval) (n : nat) : list event :=
  query cfg run_id :: concat (replicate n [Sleep POLL_INTERVAL_SECONDS; query cfg run_id]).

(** A JSON value that is not an object. *)
Definition not_object (v : pyval) : bool :=
  match v with PDict _ => false | _ => true end.

(** The run a 200 response describes, as [launch_run] reads it: the object
    under "run", or an empty one when the body has no such key. *)
Definition describes_run (r : response) (run : dict) : Prop :=
  status_code r = 200 /\
  exists body, json r = Some (PDict body) /\ default (PDict ∅) (body !! "run") = PDict run.

(** The terminal statuses of the specification. *)
Definition terminal_set : list string := [ "COMPLETED"; "FAILED"; "CANCELLED" ].

(** A status that is in the terminal set. *)
Definition in_terminal_set (status : pyval) : Prop :=
  exists s, status = PStr s /\ In s terminal_set.

(** A status name: a non-empty string. *)
Definition status_name (status : pyval) : Prop :=
  exists s, status = PStr s /\ s <> "".

End LaunchRunVocabulary.

Section VapiUploadVocabulary.
Import VapiUpload.

(** The configuration has been filled in: [main] passes its checks. *)
Definition vapi_configured (cfg : config) : Prop :=
  VAPI_API_KEY cfg <> "your_vapi_api_key" /\
  COVAL_API_KEY cfg <> "your_coval_api_key" /\
  CALL_ID cfg <> "your_vapi_call_id".

(** The request [get_vapi_call] sends. *)
Definition vapi_request (cfg : config) (call_id : string) : event :=
  Request GET [Lit VAPI_API_URL; Lit "/"; Lit call_id] None
    {[ "Authorization" := [Lit "Bearer "; Lit (VAPI_API_KEY cfg)];
       "Content-Type" := [Lit "application/json"] ]}
    API_TIMEOUT.

(** A value [len] accepts. *)
Definition sized (v : pyval) : bool :=
  match v with PStr _ | PList _ | PDict _ => true | _ => false end.

(** The messages of a call, with the default of [get]. *)
Definition messages_of (d : dict) : pyval := default (PList []) (d !! "messages").

(** A 200 response whose JSON body is the call [d], with messages that
    have a length. *)
Definition fetched (r : reply) (d : dict) : Prop :=
  exists resp,
    r = Answer resp /\ status_code resp = 200 /\ json resp = Some (PDict d) /\
    sized (messages_of d) = true.

(** [v[:n]] for a string or a list. *)
Definition sliced (v : pyval) (n : nat) : pyval :=
  match v with
  | PStr s => PStr (String.substring 0 n s)
  | PList l => PList (take n l)
  | _ => v
  end.

(** The recording [upload_to_coval] refers to: the stereo one if any. *)
Definition audio_of (d : dict) : pyval :=
  py_or (default PNone (d !! "stereoRecordingUrl")) (default PNone (d !! "recordingUrl")).

(** Call data [upload_to_coval] can turn into a payload: the recording
    URL, if any, is a string (or a list), and the customer, if any, is an
    object. *)
Definition uploadable (d : dict) : Prop :=
  (truthy (audio_of d) = true -> sliceable (audio_of d) = true) /\
  (forall c, d !! "customer" = Some c -> not_object c = false).

(** The metadata of the payload, from the call data. *)
Definition upload_metadata (d : dict) : dict :=
  let metadata : dict :=
    {[ "platform" := PStr "vapi";
       "vapi_call_id" := default PNone (d !! "id");
       "status" := default PNone (d !! "status");
       "type" := default PNone (d !! "type");
       "assistant_id" := default PNone (d !! "assistantId") ]} in
  let metadata : dict :=
    match d !! "customer" with
    | Some (PDict c) => <["customer_number" := default PNone (c !! "number")]> metadata
    | _ => metadata
    end in
  match d !! "endedReason" with
  | Some reason => <["ended_reason" := reason]> metadata
  | None => metadata
  end.

(** The payload [upload_to_coval] builds from the call data. *)
Definition upload_payload (cfg : config) (now : string) (d : dict)
    (transcript : list pyval) : dict :=
  let payload : dict :=
    {[ "transcript" := PList transcript;
       "external_conversation_id" := default PNone (d !! "id");
       "occurred_at" :=
         py_or (py_or (default PNone (d !! "startedAt")) (default PNone (d !! "createdAt")))
               (PStr now) ]} in
  let payload : dict :=
    if truthy (audio_of d) then <["audio_url" := audio_of d]> payload else payload in
  let payload : dict :=
    match METRIC_IDS cfg with
    | [] => payload
    | ids => <["metrics" := PList (PStr <$> ids)]> payload
    end in
  <["metadata" := PDict (upload_metadata d)]> payload.

(** The request [upload_to_coval] sends for a payload. *)
Definition upload_request (cfg : config) (payload : dict) : event :=
  Request POST [Lit COVAL_API_URL] (Some (PDict payload))
    {[ "X-API-Key" := [Lit (COVAL_API_KEY cfg)];
       "Content-Type" := [Lit "application/json"] ]}
    API_TIMEOUT.

(** What [upload_to_coval] prints before it sends its request. *)
Definition upload_preamble (d : dict) (transcript : list pyval) : list event :=
  Print [Lit nl; Lit "Uploading to Coval..."] ::
  (if truthy (audio_of d)
   then [ Print [Lit "Audio URL: "; Fmt (sliced (audio_of d) 60); Lit "..."];
          Print [Lit "Transcript: "; Fmt (PInt (Z.of_nat (length transcript)));
                 Lit " messages with timing"] ]
   else []).

(** The exchange that ends [upload_to_coval]: the request for a payload,
    and what is made of the answer. *)
Definition upload_exchange (cfg : config) (payload : dict) (net : option reply) : io pyval :=
  let headers : gmap string fstring :=
    {[ "X-API-Key" := [Lit (COVAL_API_KEY cfg)];
       "Content-Type" := [Lit "application/json"] ]} in
  try_except
    (response ← send POST [Lit COVAL_API_URL] (Some (PDict payload)) headers API_TIMEOUT net;
     if Z.eqb (status_code response) 200 then
       result ← response_json response;
       conversation ← py_get result "conversation" (PDict ∅);
       conversation_id ← py_get conversation "conversation_id" PNone;
       conversation' ← py_get result "conversation" (PDict ∅);
       status ← py_get conversation' "status" PNone;
       print [Lit "Successfully uploaded to Coval"];;
       print [Lit "Conversation ID: "; Fmt conversation_id];;
       print [Lit "Status: "; Fmt status];;
       print [Lit "View at: https://app.coval.dev/conversations/"; Fmt conversation_id];;
       ret result
     else
       print [Lit "Failed to upload to Coval: "; Fmt (PInt (status_code response))];;
       print [Lit "Response: "; Lit (text response)];;
       ret PNone)
    (fun e =>
       match e with
       | Timeout =>
           print [Lit "Error: Request timed out after "; Fmt (PInt API_TIMEOUT); Lit " seconds"];;
           ret PNone
       | RequestException msg =>
           print [Lit "Error uploading to Coval: "; Lit msg];;
           ret PNone
       | _ => raise e
       end).

(** The transcript [main] builds from the call data [d]: none when the
    call has no messages, else what the mapper returns. *)
Definition transcribes (d : dict) (transcript : list pyval) : Prop :=
  (truthy (messages_of d) = false /\ transcript = []) \/
  (truthy (messages_of d) = true /\
   result (transform_vapi_transcript (messages_of d)) = Done transcript).

(** A 200 response whose JSON body is the non-empty object [res], with a
    conversation that is an object if there is one. *)
Definition accepted (r : reply) (res : dict) : Prop :=
  exists resp,
    r = Answer resp /\ status_code resp = 200 /\ json resp = Some (PDict res) /\
    truthy (PDict res) = true /\
    not_object (default (PDict ∅) (res !! "conversation")) = false.

(** What an entry takes over from its message besides role and timing:
    the text, the time stamp if the message has one, and no other key. *)
Definition copied_from (msg entry : pyval) : Prop :=
  exists d e : dict,
    msg = PDict d /\ entry = PDict e /\
    e !! "content" = Some (message_of d) /\
    e !! "timestamp" = d !! "time" /\
    dom e =
      {[ "role"; "content"; "start_time"; "end_time" ]} ∪
      (match d !! "time" with Some _ => {[ "timestamp" ]} | None => ∅ end : gset string).

(** The diagnostic for a message that is skipped. *)
Definition skip_line (idx : Z) (role : pyval) : event :=
  Print [Lit "Unknown role '"; Fmt role; Lit "' in message "; Fmt (PInt idx);
         Lit ", skipping"].

(** The last line the mapper prints. *)
Definition summary_line (transcript : list pyval) : event :=
  Print [Lit "Transformed "; Fmt (PInt (Z.of_nat (length transcript))); Lit " messages"].

(** The mapping table of the specification: third-party role, target role. *)
Definition role_table : list (string * string) :=
  [ ("user", "assistant"); ("bot", "user"); ("system", "system") ].

(** The target role the table gives for a role, if it lists it. *)
Definition target_role (role : pyval) : option string :=
  match role with
  | PStr s => snd <$> List.find (fun entry => String.eqb s (fst entry)) role_table
  | _ => None
  end.

(** A record whose role is one of "user", "bot", "system". *)
Definition listed_role (msg : pyval) : bool :=
  match msg with
  | PDict d => match target_role (role_of d) with Some _ => true | None => false end
  | _ => false
  end.

(** A message record: a dictionary, whose text and timing are well typed
    when its role is one of the table (a record with another role is
    skipped before its other fields are looked at). *)
Definition typed_record (msg : pyval) : Prop :=
  (exists d, msg = PDict d) /\ (listed_role msg = true -> well_typed msg = true).

(** The translation of a record, as the specification describes it: the
    role the table gives, the text, the offset as start time, and the
    start time plus the duration converted to seconds as end time. *)
Definition translation_of (msg entry : pyval) : Prop :=
  exists d target s dur,
    msg = PDict d /\
    target_role (role_of d) = Some target /\
    number_value (offset_of d) = Some s /\
    number_value (duration_of d) = Some dur /\
    entry = PDict (entry_for d target s dur).

(** The entry of a record with missing timing fields: without an offset
    it starts at 0.0, without a duration it ends when it starts, and
    without either it ends at 0.0. *)
Definition defaults_applied (msg entry : pyval) : Prop :=
  exists d e : dict,
    msg = PDict d /\ entry = PDict e /\
    (d !! "secondsFromStart" = None -> e !! "start_time" = Some (PFloat fzero)) /\
    (d !! "duration" = None ->
     exists s en,
       number_value (offset_of d) = Some s /\
       e !! "end_time" = Some (PFloat en) /\
       (float_is_nan s = false -> feqb en s = true)) /\
    (d !! "secondsFromStart" = None -> d !! "duration" = None ->
     e !! "end_time" = Some (PFloat fzero)).

(** Records with missing fields: no role, no timing, no text. *)
Definition sparse_messages : list pyval :=
  [ PDict {[ "role" := PStr "bot" ]};
    PDict {[ "message" := PStr "no role" ]};
    PDict {[ "role" := PStr "user"; "secondsFromStart" := PFloat (float_lit 3 (-1)) ]} ].

End VapiUploadVocabulary.

(** ** Facts about the monad and the Python operations *)

Lemma result_bind {A B} (m : io A) (k : A -> io B) :
  result (m ≫= k) =
  match result m with
  | Done a => result (k a)
  | Raised e => Raised e
  | Waiting => Waiting
  end.
Proof. unfold mbind, io_bind, bind. destruct (result m); reflexivity. Qed.

Lemma trace_bind {A B} (m : io A) (k : A -> io B) :
  trace (m ≫= k) =
  match result m with
  | Done a => (trace m ++ trace (k a))%list
  | _ => trace m
  end.
Proof. unfold mbind, io_bind, bind. destruct (result m); reflexivity. Qed.

Lemma bind_ret {A B} (a : A) (k : A -> io B) : ret a ≫= k = k a.
Proof. unfold mbind, io_bind, bind. simpl. destruct (k a); reflexivity. Qed.

Lemma to_float_number v f : number_value v = Some f -> to_float v = ret f.
Proof.
  destruct v; simpl; try discriminate; try (intros [= <-]; reflexivity).
  destruct (float_is_inf (float_of_Z n)); [discriminate | intros [= <-]; reflexivity].
Qed.

Lemma py_slice_sliceable v n : sliceable v = true -> exists w, py_slice v n = ret w.
Proof. destruct v; simpl; try discriminate; eauto. Qed.

(** ** The Transcript Mapper *)

Section TranscriptMapper.
Import VapiUpload.

Lemma transform_message_skip idx d :
  coval_role_of (role_of d) = None ->
  result (transform_message idx (PDict d)) = Done None.
Proof.
  intros H. unfold transform_message, py_get. rewrite !bind_ret.
  fold (role_of d). rewrite H. reflexivity.
Qed.

Lemma transform_message_entry idx d r s dur :
  coval_role_of (role_of d) = Some r ->
  number_value (offset_of d) = Some s ->
  number_value (duration_of d) = Some dur ->
  sliceable (message_of d) = true ->
  result (transform_message idx (PDict d)) = Done (Some (PDict (entry_for d r s dur))).
Proof.
  intros Hr Hs Hd Hm. unfold transform_message, py_get. rewrite !bind_ret.
  fold (role_of d) (message_of d) (offset_of d) (duration_of d). rewrite Hr.
  rewrite !bind_ret. unfold py_truediv, py_add.
  rewrite (to_float_number _ _ Hd), bind_ret.
  change (float_is_zero (float_of_Z 1000)) with false. cbv iota.
  rewrite bind_ret, (to_float_number _ _ Hs), !bind_ret.
  destruct (py_slice_sliceable _ 50 Hm) as [w Hw].
  unfold entry_for, py_contains, py_getitem. rewrite bind_ret.
  destruct (d !! "time") as [t|] eqn:Ht.
  - rewrite bool_decide_true by eauto. rewrite !bind_ret, Hw, bind_ret. reflexivity.
  - rewrite bool_decide_false by (intros [? ?]; discriminate).
    rewrite !bind_ret, Hw, bind_ret. reflexivity.
Qed.

Lemma result_bind_ext {A B} (m : io A) (k k' : A -> io B) :
  (forall a, result (k a) = result (k' a)) ->
  result (m ≫= k) = result (m ≫= k').
Proof. intros H. rewrite !result_bind. destruct (result m); auto. Qed.

Lemma result_print {B} (line : fstring) (k : unit -> io B) :
  result (print line ≫= k) = result (k tt).
Proof. reflexivity. Qed.

(** Whatever the position of a message in the list, the loop body ends the
    same way: the index only shows in what is printed. *)
Lemma transform_message_idx i j msg :
  result (transform_message i msg) = result (transform_message j msg).
Proof.
  destruct msg as [| | | | | |d]; try reflexivity.
  unfold transform_message, py_get. rewrite !bind_ret.
  destruct (coval_role_of _).
  - repeat (apply result_bind_ext; intros). rewrite !result_print. reflexivity.
  - rewrite !result_print. reflexivity.
Qed.

Lemma result_bind_inv {A B} (m : io A) (k : A -> io B) (b : B) :
  result (m ≫= k) = Done b -> exists a, result m = Done a /\ result (k a) = Done b.
Proof. rewrite result_bind. destruct (result m); try discriminate. eauto. Qed.

Tactic Notation "bind_inv" hyp(H) "as" ident(a) ident(Ha) :=
  apply result_bind_inv in H as (a & Ha & H).

Lemma to_float_inv v f : result (to_float v) = Done f -> number_value v = Some f.
Proof.
  destruct v; simpl; try discriminate; try (intros [= <-]; reflexivity).
  destruct (float_is_inf (float_of_Z n)); simpl; [discriminate | intros [= <-]; reflexivity].
Qed.

Lemma py_truediv_inv v b x :
  result (py_truediv v b) = Done x ->
  exists f, number_value v = Some f /\ x = fdiv f b.
Proof.
  intros H. unfold py_truediv in H. bind_inv H as a Ha. apply to_float_inv in Ha.
  destruct (float_is_zero b); [discriminate|]. injection H as <-. eauto.
Qed.

Lemma py_add_inv v b x :
  result (py_add v b) = Done x ->
  exists f, number_value v = Some f /\ x = fadd f b.
Proof.
  intros H. unfold py_add in H. bind_inv H as a Ha. apply to_float_inv in Ha.
  injection H as <-. eauto.
Qed.

Lemma py_slice_inv v n w : result (py_slice v n) = Done w -> sliceable v = true.
Proof. destruct v; simpl; try discriminate; reflexivity. Qed.

(** Every entry the loop body produces comes from a dictionary with a
    mapped role, numeric timing and a text that can be sliced, and is the
    entry [entry_for] describes. *)
Lemma transform_message_inv idx msg e :
  result (transform_message idx msg) = Done (Some e) ->
  exists d r s dur,
    msg = PDict d /\
    coval_role_of (role_of d) = Some r /\
    number_value (offset_of d) = Some s /\
    number_value (duration_of d) = Some dur /\
    sliceable (message_of d) = true /\
    e = PDict (entry_for d r s dur).
Proof.
  intros H. destruct msg as [| | | | | |d]; try discriminate.
  destruct (coval_role_of (role_of d)) as [r|] eqn:Hr.
  2:{ rewrite (transform_message_skip _ _ Hr) in H. discriminate. }
  assert (H' := H). unfold transform_message, py_get in H'. rewrite !bind_ret in H'.
  fold (role_of d) (message_of d) (offset_of d) (duration_of d) in H'.
  rewrite Hr, !bind_ret in H'.
  bind_inv H' as x Hx. apply py_truediv_inv in Hx as (dur & Hd & ->).
  bind_inv H' as y Hy. apply py_add_inv in Hy as (s & Hs & ->).
  bind_inv H' as b Hb. bind_inv H' as en Hen. bind_inv H' as w Hw.
  apply py_slice_inv in Hw.
  exists d, r, s, dur. repeat split; try assumption.
  rewrite (transform_message_entry idx d r s dur Hr Hs Hd Hw) in H. congruence.
Qed.

Lemma transform_message_none idx msg :
  result (transform_message idx msg) = Done None -> recognised msg = false.
Proof.
  intros H. destruct msg as [| | | | | |d]; try reflexivity.
  unfold recognised. destruct (coval_role_of (role_of d)) as [r|] eqn:Hr.
  2:{ apply bool_decide_false. intros [? ?]; discriminate. }
  exfalso. unfold transform_message, py_get in H. rewrite !bind_ret in H.
  fold (role_of d) in H. rewrite Hr, !bind_ret in H.
  bind_inv H as x Hx. bind_inv H as y Hy. bind_inv H as b Hb.
  bind_inv H as en Hen. bind_inv H as w Hw. discriminate.
Qed.

Lemma transform_message_some idx msg e :
  result (transform_message idx msg) = Done (Some e) -> recognised msg = true.
Proof.
  intros H. apply transform_message_inv in H as (d & r & s & dur & -> & Hr & _).
  unfold recognised. rewrite Hr. apply bool_decide_true. eauto.
Qed.

Lemma transform_message_record idx msg :
  message_record msg ->
  if recognised msg
  then exists e, result (transform_message idx msg) = Done (Some e)
  else result (transform_message idx msg) = Done None.
Proof.
  intros [[d ->] Hwt]. destruct (recognised (PDict d)) eqn:Hrec.
  - specialize (Hwt eq_refl). unfold well_typed in Hwt.
    apply andb_prop in Hwt as [Hwt Hdur]. apply andb_prop in Hwt as [Hm Hs].
    apply bool_decide_eq_true in Hdur as [dur Hdur].
    apply bool_decide_eq_true in Hs as [s Hs].
    unfold recognised in Hrec. apply bool_decide_eq_true in Hrec as [r Hr].
    eexists. eapply transform_message_entry; eassumption.
  - apply transform_message_skip. unfold recognised in Hrec.
    apply bool_decide_eq_false in Hrec. destruct (coval_role_of _); [|reflexivity].
    exfalso. eauto.
Qed.

Lemma transform_loop_inv msgs : forall idx acc r,
  result (transform_loop idx msgs acc) = Done r ->
  exists ts, r = (acc ++ ts)%list /\ Forall2 translates_to (List.filter recognised msgs) ts.
Proof.
  induction msgs as [|m msgs IH]; intros idx acc r H.
  - injection H as <-. exists []. rewrite app_nil_r. split; [reflexivity | constructor].
  - cbn [transform_loop] in H. bind_inv H as a Ha. destruct a as [e|].
    + apply IH in H as (ts & -> & Hts). exists (e :: ts). split.
      * rewrite <- app_assoc. reflexivity.
      * cbn [List.filter]. rewrite (transform_message_some _ _ _ Ha).
        constructor; [|assumption].
        intros i. rewrite (transform_message_idx i idx). assumption.
    + apply IH in H as (ts & -> & Hts). exists ts. split; [reflexivity|].
      cbn [List.filter]. rewrite (transform_message_none _ _ Ha). assumption.
Qed.

Lemma transform_loop_total msgs :
  Forall message_record msgs ->
  forall idx acc, exists r, result (transform_loop idx msgs acc) = Done r.
Proof.
  induction 1 as [|m msgs Hm _ IH]; intros idx acc.
  - eexists. reflexivity.
  - cbn [transform_loop]. rewrite result_bind.
    pose proof (transform_message_record idx m Hm) as Hb.
    destruct (recognised m).
    + destruct Hb as [e ->]. apply IH.
    + rewrite Hb. apply IH.
Qed.

Lemma transform_vapi_transcript_result msgs :
  result (transform_vapi_transcript (PList msgs)) = result (transform_loop 0 msgs []).
Proof.
  unfold transform_vapi_transcript. rewrite result_print. unfold py_iter.
  rewrite bind_ret, result_bind. destruct (result (transform_loop 0 msgs [])); reflexivity.
Qed.

Lemma filter_length_le {A} (f : A -> bool) (l : list A) :
  (length (List.filter f l) <= length l)%nat.
Proof. induction l as [|x l IH]; simpl; [lia | destruct (f x); simpl; lia]. Qed.

Lemma entry_for_lookups d r s dur :
  entry_for d r s dur !! "role" = Some (PStr r) /\
  entry_for d r s dur !! "content" = Some (message_of d) /\
  entry_for d r s dur !! "start_time" = Some (offset_of d) /\
  entry_for d r s dur !! "end_time" = Some (PFloat (fadd s (fdiv dur (float_of_Z 1000)))) /\
  entry_for d r s dur !! "message" = None /\
  entry_for d r s dur !! "secondsFromStart" = None /\
  entry_for d r s dur !! "duration" = None /\
  entry_for d r s dur !! "time" = None.
Proof.
  unfold entry_for. destruct (d !! "time"); repeat split; by simplify_map_eq.
Qed.

Lemma well_typed_fields d :
  well_typed (PDict d) = true ->
  sliceable (message_of d) = true /\
  (exists s, number_value (offset_of d) = Some s) /\
  (exists dur, number_value (duration_of d) = Some dur).
Proof.
  unfold well_typed. intros H.
  apply andb_prop in H as [H Hdur]. apply andb_prop in H as [Hm Hs].
  apply bool_decide_eq_true in Hdur. apply bool_decide_eq_true in Hs. auto.
Qed.




Lemma transform_loop_idx msgs : forall i j acc,
  result (transform_loop i msgs acc) = result (transform_loop j msgs acc).
Proof.
  induction msgs as [|m msgs IH]; intros i j acc; [reflexivity|].
  cbn [transform_loop]. rewrite !result_bind, (transform_message_idx i j).
  destruct (result (transform_message j m)) as [[e|]| |]; auto.
Qed.

Lemma transform_loop_skip pre d post : forall idx acc,
  recognised (PDict d) = false ->
  result (transform_loop idx (pre ++ PDict d :: post) acc) =
  result (transform_loop idx (pre ++ post) acc).
Proof.
  induction pre as [|m pre IH]; intros idx acc Hrec.
  - cbn [app transform_loop]. rewrite result_bind, transform_message_skip.
    + apply transform_loop_idx.
    + unfold recognised in Hrec. apply bool_decide_eq_false in Hrec.
      destruct (coval_role_of _); [exfalso; eauto | reflexivity].
  - cbn [app transform_loop]. rewrite !result_bind.
    destruct (result (transform_message idx m)) as [[e|]| |]; auto.
Qed.

(** The table of the specification is the one the loop body applies. *)
Lemma target_role_coval role : coval_role_of role = target_role role.
Proof.
  destruct role as [| | | |s| |]; try reflexivity.
  unfold coval_role_of, eq_str, target_role, role_table. cbn [List.find fst snd].
  destruct (String.eqb s "user"); [reflexivity|].
  destruct (String.eqb s "bot"); [reflexivity|].
  destruct (String.eqb s "system"); reflexivity.
Qed.

Lemma listed_recognised msg : listed_role msg = recognised msg.
Proof.
  destruct msg as [| | | | | |d]; try reflexivity.
  unfold listed_role, recognised. rewrite target_role_coval.
  destruct (target_role (role_of d)).
  - symmetry. apply bool_decide_true. eauto.
  - symmetry. apply bool_decide_false. intros [? ?]. discriminate.
Qed.

Lemma filter_listed msgs : List.filter listed_role msgs = List.filter recognised msgs.
Proof. apply List.filter_ext. intros m. apply listed_recognised. Qed.

Lemma typed_record_message_record msg : typed_record msg -> message_record msg.
Proof. intros [Hd Hwt]. split; [assumption|]. rewrite <- listed_recognised. assumption. Qed.

Lemma translates_to_translation msg entry :
  translates_to msg entry -> translation_of msg entry.
Proof.
  intros H. destruct (transform_message_inv 0 _ _ (H 0))
    as (d & r & s & dur & -> & Hr & Hs & Hd & _ & ->).
  exists d, r, s, dur. rewrite <- target_role_coval. auto.
Qed.

(** C2. For a sequence of message records the mapper returns a sequence no
    longer than its input, made of exactly the translations of the records
    whose role is "user", "bot" or "system", in the order of the input; a
    record with any other role is skipped and the rest of the sequence is
    transformed as if it were not there. *)
Theorem mapper_keeps_recognised_in_order :
  (forall msgs, Forall typed_record msgs ->
     exists ts,
       result (transform_vapi_transcript (PList msgs)) = Done ts /\
       (length ts <= length msgs)%nat /\
       Forall2 translation_of (List.filter listed_role msgs) ts) /\
  (forall pre d post, listed_role (PDict d) = false ->
     result (transform_vapi_transcript (PList (pre ++ PDict d :: post))) =
     result (transform_vapi_transcript (PList (pre ++ post)))).
Proof.
  split.
  - intros msgs Hrec.
    assert (Hrec' : Forall message_record msgs).
    { eapply Forall_impl; [exact Hrec|]. apply typed_record_message_record. }
    rewrite transform_vapi_transcript_result.
    destruct (transform_loop_total msgs Hrec' 0 []) as [r Hr].
    exists r. split; [assumption|].
    destruct (transform_loop_inv _ _ _ _ Hr) as (ts & -> & Hts).
    cbn [app]. rewrite filter_listed. split.
    + rewrite <- (Forall2_length _ _ _ Hts). apply filter_length_le.
    + eapply Forall2_impl; [exact Hts|]. apply translates_to_translation.
  - intros pre d post Hrec. rewrite !transform_vapi_transcript_result.
    apply transform_loop_skip. rewrite <- listed_recognised. assumption.
Qed.

Lemma mapper_keeps_recognised_in_order_witness :
  exists ts,
    result (transform_vapi_transcript (PList example_messages)) = Done ts /\
    (length ts <= length example_messages)%nat /\
    Forall2 translation_of (List.filter listed_role example_messages) ts.
Proof.
  destruct mapper_keeps_recognised_in_order as [H _].
  apply (H example_messages).
  repeat constructor; try (eexists; reflexivity); vm_compute; congruence.
Defined.

Lemma translates_to_timed msg entry : translates_to msg entry -> timed_from msg entry.
Proof.
  intros H. destruct (transform_message_inv 0 _ _ (H 0))
    as (d & r & s & dur & -> & Hr & Hs & Hd & Hm & ->).
  exists d, (entry_for d r s dur), s, dur.
  repeat split; try assumption; apply entry_for_lookups.
Qed.

(** C3. In every entry the mapper produces, start_time is the source
    message's secondsFromStart unchanged and end_time is start_time plus
    the duration divided by 1000, in float arithmetic; a message with
    secondsFromStart 2.0 and duration 1000 yields start 2.0 and end 3.0. *)
Theorem entry_timing :
  (forall msgs ts,
     result (transform_vapi_transcript (PList msgs)) = Done ts ->
     Forall2 timed_from (List.filter recognised msgs) ts) /\
  (forall msgs, Forall message_record msgs ->
     exists ts, result (transform_vapi_transcript (PList msgs)) = Done ts) /\
  (forall idx d r,
     coval_role_of (role_of d) = Some r ->
     sliceable (message_of d) = true ->
     d !! "secondsFromStart" = Some (PFloat (float_lit 2 0)) ->
     d !! "duration" = Some (PInt 1000) ->
     exists e, result (transform_message idx (PDict d)) = Done (Some (PDict e)) /\
               e !! "start_time" = Some (PFloat (float_lit 2 0)) /\
               e !! "end_time" = Some (PFloat (float_lit 3 0))).
Proof.
  split; [|split].
  - intros msgs ts H. rewrite transform_vapi_transcript_result in H.
    apply transform_loop_inv in H as (ts' & -> & Hts). cbn [app].
    eapply Forall2_impl; [exact Hts|]. apply translates_to_timed.
  - intros msgs Hrec. rewrite transform_vapi_transcript_result.
    apply transform_loop_total. assumption.
  - intros idx d r Hr Hm Hs Hd.
    exists (entry_for d r (float_lit 2 0) (float_of_Z 1000)). split.
    + apply transform_message_entry; try assumption.
      * unfold offset_of. rewrite Hs. reflexivity.
      * unfold duration_of. rewrite Hd. reflexivity.
    + destruct (entry_for_lookups d r (float_lit 2 0) (float_of_Z 1000))
        as (_ & _ & Hst & Hen & _).
      rewrite Hst, Hen. unfold offset_of. rewrite Hs. split; [reflexivity|].
      vm_compute. reflexivity.
Qed.

Lemma entry_timing_witness :
  Forall2 timed_from (List.filter recognised example_messages) example_transcript.
Proof.
  destruct entry_timing as [H _]. apply (H example_messages example_transcript).
  vm_compute. reflexivity.
Defined.

(** Adding the float 0.0 leaves a number numerically unchanged. *)
Lemma fadd_zero_eq (s : float) :
  float_is_nan s = false -> feqb (fadd s fzero) s = true.
Proof.
  destruct s as [[|]|[|]| |[|] m e]; intros H; try discriminate H; try reflexivity;
    unfold feqb, fadd, fzero, SFeqb, SFadd, SFcompare;
    rewrite Z.compare_refl, Pos.compare_cont_refl; reflexivity.
Qed.

Lemma translates_to_defaults msg entry :
  translates_to msg entry -> defaults_applied msg entry.
Proof.
  intros H. destruct (transform_message_inv 0 _ _ (H 0))
    as (d & r & s & dur & -> & Hr & Hs & Hd & _ & ->).
  exists d, (entry_for d r s dur).
  destruct (entry_for_lookups d r s dur) as (_ & _ & Hst & Hen & _).
  assert (Hdur0 : d !! "duration" = None -> dur = float_of_Z 0).
  { intros Hnone. unfold duration_of in Hd. rewrite Hnone in Hd.
    injection Hd as <-. reflexivity. }
  assert (Hs0 : d !! "secondsFromStart" = None -> s = fzero).
  { intros Hnone. unfold offset_of in Hs. rewrite Hnone in Hs.
    injection Hs as <-. reflexivity. }
  split; [reflexivity|]. split; [reflexivity|]. split; [|split].
  - intros Hnone. rewrite Hst. unfold offset_of. rewrite Hnone. reflexivity.
  - intros Hnone. exists s, (fadd s fzero). rewrite Hen, (Hdur0 Hnone).
    split; [assumption | split; [| apply fadd_zero_eq]].
    change (fdiv (float_of_Z 0) (float_of_Z 1000)) with fzero. reflexivity.
  - intros Hn1 Hn2. rewrite Hen, (Hdur0 Hn2), (Hs0 Hn1). vm_compute. reflexivity.
Qed.

Lemma no_role_not_listed (d : dict) : d !! "role" = None -> listed_role (PDict d) = false.
Proof. intros H. unfold listed_role, role_of. rewrite H. reflexivity. Qed.

(** C10. Missing fields never make the mapper fail.  A record without a
    "role" key is skipped like a record with an unknown role: the mapper
    returns what it returns without it.  On every sequence of records the
    mapper returns, with one entry for each record whose role is in the
    table; the entry of a record without "secondsFromStart" has
    start_time 0.0, and the entry of a record without "duration" has an
    end_time equal to its start_time. *)
Theorem missing_fields_use_defaults :
  (forall pre d post, d !! "role" = None ->
     result (transform_vapi_transcript (PList (pre ++ PDict d :: post))) =
     result (transform_vapi_transcript (PList (pre ++ post)))) /\
  (forall msgs, Forall typed_record msgs ->
     exists ts,
       result (transform_vapi_transcript (PList msgs)) = Done ts /\
       Forall2 defaults_applied (List.filter listed_role msgs) ts).
Proof.
  split.
  - intros pre d post Hrole. rewrite !transform_vapi_transcript_result.
    apply transform_loop_skip. rewrite <- listed_recognised.
    apply no_role_not_listed. assumption.
  - intros msgs Hrec.
    assert (Hrec' : Forall message_record msgs).
    { eapply Forall_impl; [exact Hrec|]. apply typed_record_message_record. }
    rewrite transform_vapi_transcript_result.
    destruct (transform_loop_total msgs Hrec' 0 []) as [r Hr].
    exists r. split; [assumption|].
    destruct (transform_loop_inv _ _ _ _ Hr) as (ts & -> & Hts).
    cbn [app]. rewrite filter_listed.
    eapply Forall2_impl; [exact Hts|]. apply translates_to_defaults.
Qed.

Lemma missing_fields_use_defaults_witness :
  exists ts,
    result (transform_vapi_transcript (PList sparse_messages)) = Done ts /\
    Forall2 defaults_applied (List.filter listed_role sparse_messages) ts.
Proof.
  destruct missing_fields_use_defaults as [_ H].
  apply (H sparse_messages).
  repeat constructor; try (eexists; reflexivity); vm_compute; congruence.
Defined.

Lemma filter_keeps_all {A} (f : A -> bool) (l : list A) :
  length (List.filter f l) = length l -> List.filter f l = l.
Proof.
  induction l as [|x l IH]; [reflexivity|]. cbn [List.filter].
  destruct (f x); cbn [length]; intros H.
  - f_equal. apply IH. lia.
  - pose proof (filter_length_le f l). lia.
Qed.

Lemma Forall2_diag {A} (R : A -> A -> Prop) (l : list A) :
  Forall2 R l l -> forall x, In x l -> R x x.
Proof.
  induction l as [|y l IH]; intros H x Hin; [destruct Hin|].
  apply Forall2_cons_1 in H as [Hy Hl].
  destruct Hin as [<-|Hin]; auto.
Qed.

(** An entry the mapper has produced is itself a well-typed record: it has
    none of the keys the mapper reads, except "role". *)
Lemma entry_is_record msg entry : translates_to msg entry -> message_record entry.
Proof.
  intros H. destruct (transform_message_inv 0 _ _ (H 0))
    as (d & r & s & dur & -> & Hr & Hs & Hd & Hm & ->).
  split; [eauto|]. intros _.
  destruct (entry_for_lookups d r s dur) as (_ & _ & _ & _ & Hmsg & Hoff & Hdur & _).
  unfold well_typed, message_of, offset_of, duration_of.
  rewrite Hmsg, Hoff, Hdur. reflexivity.
Qed.

Lemma outputs_are_records msgs ts :
  result (transform_vapi_transcript (PList msgs)) = Done ts -> Forall message_record ts.
Proof.
  intros H. rewrite transform_vapi_transcript_result in H.
  apply transform_loop_inv in H as (ts' & -> & Hts). cbn [app].
  induction Hts as [|m e ms es Hme _ IH]; constructor; [|assumption].
  eapply entry_is_record; eassumption.
Qed.

(** No list holding an "assistant" or "user" entry is a fixed point. *)
Lemma not_fixed_point ts d :
  In (PDict d) ts ->
  d !! "role" = Some (PStr "assistant") \/ d !! "role" = Some (PStr "user") ->
  result (transform_vapi_transcript (PList ts)) <> Done ts.
Proof.
  intros Hin Hrole Hfix. rewrite transform_vapi_transcript_result in Hfix.
  apply transform_loop_inv in Hfix as (ts' & Heq & Hts). cbn [app] in Heq. subst ts'.
  assert (Hall : List.filter recognised ts = ts).
  { apply filter_keeps_all. apply (Forall2_length _ _ _ Hts). }
  rewrite Hall in Hts.
  pose proof (Forall2_diag _ _ Hts _ Hin 0) as Hself.
  apply transform_message_inv in Hself as (d' & r & s & dur & [= <-] & Hr & _ & _ & _ & He).
  injection He as He.
  pose proof (proj1 (entry_for_lookups d r s dur)) as Hrole'. rewrite <- He in Hrole'.
  unfold role_of in Hr.
  destruct Hrole as [Ha|Hu].
  - rewrite Ha in Hr. discriminate Hr.
  - rewrite Hu in Hr, Hrole'. cbn in Hr. congruence.
Qed.

(** C8. The mapper is not idempotent: mapping the example and mapping the
    result again gives a different transcript, and so does every output
    that holds an "assistant" or a "user" entry when it is fed back in. *)
Theorem mapper_not_idempotent :
  (exists msgs ts ts',
     result (transform_vapi_transcript (PList msgs)) = Done ts /\
     result (transform_vapi_transcript (PList ts)) = Done ts' /\
     ts' <> ts) /\
  (forall msgs ts d,
     result (transform_vapi_transcript (PList msgs)) = Done ts ->
     In (PDict d) ts ->
     d !! "role" = Some (PStr "assistant") \/ d !! "role" = Some (PStr "user") ->
     exists ts',
       result (transform_vapi_transcript (PList ts)) = Done ts' /\ ts' <> ts).
Proof.
  assert (Hgen : forall msgs ts d,
     result (transform_vapi_transcript (PList msgs)) = Done ts ->
     In (PDict d) ts ->
     d !! "role" = Some (PStr "assistant") \/ d !! "role" = Some (PStr "user") ->
     exists ts',
       result (transform_vapi_transcript (PList ts)) = Done ts' /\ ts' <> ts).
  { intros msgs ts d H Hin Hrole.
    pose proof (outputs_are_records _ _ H) as Hrec.
    pose proof (transform_loop_total ts Hrec 0 []) as [ts' Hts'].
    rewrite <- transform_vapi_transcript_result in Hts'.
    exists ts'. split; [assumption|]. intros ->.
    exact (not_fixed_point ts d Hin Hrole Hts'). }
  split; [|exact Hgen].
  exists example_messages, example_transcript.
  destruct (Hgen example_messages example_transcript
              {[ "role" := PStr "assistant"; "content" := PStr "hi";
                 "start_time" := PFloat (float_lit 1 0);
                 "end_time" := PFloat (float_lit 3 (-1)) ]})
    as (ts' & Hts' & Hne).
  - vm_compute. reflexivity.
  - left. reflexivity.
  - left. vm_compute. reflexivity.
  - exists ts'. auto.
Qed.

Lemma mapper_not_idempotent_witness :
  exists ts',
    result (transform_vapi_transcript (PList example_transcript)) = Done ts' /\
    ts' <> example_transcript.
Proof.
  destruct mapper_not_idempotent as [_ H].
  apply (H example_messages example_transcript
           {[ "role" := PStr "user"; "content" := PStr "hello";
              "start_time" := PFloat (float_lit 2 0);
              "end_time" := PFloat (float_lit 3 0) ]}).
  - vm_compute. reflexivity.
  - right. left. reflexivity.
  - right. vm_compute. reflexivity.
Defined.

End TranscriptMapper.

(** ** The Submission Client and the Status Poller *)

Section RunLauncher.
Import LaunchRun.

Lemma trace_print {B} (line : fstring) (k : unit -> io B) :
  trace (print line ≫= k) = Print line :: trace (k tt).
Proof. reflexivity. Qed.

Lemma result_emit {B} (e : event) (k : unit -> io B) :
  result (emit e ≫= k) = result (k tt).
Proof. reflexivity. Qed.

Lemma trace_emit {B} (e : event) (k : unit -> io B) :
  trace (emit e ≫= k) = e :: trace (k tt).
Proof. reflexivity. Qed.

Lemma result_try_except {A} (m : io A) (h : exn -> io A) :
  result (try_except m h) =
  match result m with Raised e => result (h e) | o => o end.
Proof. unfold try_except. destruct (result m) eqn:E; cbn [result]; rewrite ?E; reflexivity. Qed.

Lemma trace_try_except {A} (m : io A) (h : exn -> io A) :
  trace (try_except m h) =
  match result m with Raised e => (trace m ++ trace (h e))%list | _ => trace m end.
Proof. unfold try_except. destruct (result m); reflexivity. Qed.

Lemma result_send {B} m u b h t (net : option reply) (k : response -> io B) :
  result (send m u b h t net ≫= k) =
  match net with
  | Some (Answer r) => result (k r)
  | Some TimedOut => Raised Timeout
  | Some (Failed msg) => Raised (RequestException msg)
  | None => Waiting
  end.
Proof. destruct net as [[r| |msg]|]; reflexivity. Qed.

Lemma trace_send {B} m u b h t (net : option reply) (k : response -> io B) :
  trace (send m u b h t net ≫= k) =
  Request m u b h t :: match net with Some (Answer r) => trace (k r) | _ => [] end.
Proof. destruct net as [[r| |msg]|]; reflexivity. Qed.

Lemma py_get_dict d k dflt : py_get (PDict d) k dflt = ret (default dflt (d !! k)).
Proof. reflexivity. Qed.

Lemma result_ret {A} (a : A) : result (ret a) = Done a.
Proof. reflexivity. Qed.

Lemma trace_ret {A} (a : A) : trace (ret a) = [].
Proof. reflexivity. Qed.

Create Rewrite HintDb io.
#[local] Hint Rewrite @result_print @trace_print @result_emit @trace_emit
  @result_try_except @trace_try_except @result_send @trace_send
  @bind_ret @result_ret @trace_ret py_get_dict : io.

Ltac io_simp := repeat (autorewrite with io; cbv beta).

Lemma launch_run_ok cfg a p t ms ic cc r run :
  carries_run r run ->
  let out := launch_run cfg a p t ms ic cc (Some (Answer r)) in
  result out = Done (default PNone (run !! "run_id")) /\
  In (Print [Lit "Status: "; Fmt (default PNone (run !! "status"))]) (trace out) /\
  length (requests_of (trace out)) = 1%nat.
Proof.
  intros (Hcode & body & Hjson & Hrun). cbv zeta.
  unfold launch_run, response_json. io_simp. rewrite Hcode, Hjson.
  cbn [Z.eqb Pos.eqb]. io_simp. rewrite Hrun. cbn [default from_option id].
  io_simp. split; [reflexivity|]. split; [|reflexivity].
  cbn [In]. do 7 right. left. reflexivity.
Qed.

Lemma launch_run_failed cfg a p t ms ic cc r :
  failed r ->
  let out := launch_run cfg a p t ms ic cc (Some r) in
  result out = Done PNone /\ length (requests_of (trace out)) = 1%nat.
Proof.
  intros Hfail. cbv zeta. unfold launch_run.
  destruct r as [resp| |msg]; io_simp.
  - cbn [failed] in Hfail. apply Z.eqb_neq in Hfail. rewrite Hfail.
    io_simp. split; reflexivity.
  - split; reflexivity.
  - split; reflexivity.
Qed.

Lemma get_run_status_ok cfg run_id r status :
  status_reply r status ->
  trace (get_run_status cfg run_id (Some r)) = [query cfg run_id] /\
  result (get_run_status cfg run_id (Some r)) = Done status.
Proof.
  intros (resp & run & -> & (Hcode & body & Hjson & Hrun) & Hst).
  unfold get_run_status, response_json. io_simp. rewrite Hcode, Hjson.
  cbn [Z.eqb Pos.eqb]. io_simp. rewrite Hrun. cbn [default from_option id].
  io_simp. rewrite Hst. split; reflexivity.
Qed.

Lemma get_run_status_failed cfg run_id r :
  failed r ->
  trace (get_run_status cfg run_id (Some r)) = [query cfg run_id; failure_report r] /\
  result (get_run_status cfg run_id (Some r)) = Done PNone.
Proof.
  intros Hfail. unfold get_run_status.
  destruct r as [resp| |msg]; io_simp.
  - cbn [failed] in Hfail. apply Z.eqb_neq in Hfail. rewrite Hfail.
    io_simp. split; reflexivity.
  - split; reflexivity.
  - split; reflexivity.
Qed.

(** Whatever the network answers, a status query sends one request and
    comes back. *)
Lemma get_run_status_once cfg run_id r :
  requests_of (trace (get_run_status cfg run_id (Some r))) = [query cfg run_id] /\
  result (get_run_status cfg run_id (Some r)) <> Waiting.
Proof.
  unfold get_run_status, response_json.
  destruct r as [[code txt js]| |msg]; io_simp; cbn [status_code json];
    try (split; [reflexivity | discriminate]).
  destruct (Z.eqb code 200); io_simp; [|split; [reflexivity | discriminate]].
  destruct js as [v|]; io_simp; [|split; [reflexivity | discriminate]].
  destruct v as [| | | | | |body]; try (split; [reflexivity | discriminate]).
  io_simp.
  destruct (default (PDict ∅) (body !! "run")) as [| | | | | |run];
    split; try reflexivity; discriminate.
Qed.

Lemma monitor_unfold cfg run_id r net :
  trace (monitor cfg run_id (r :: net)) =
    (trace (get_run_status cfg run_id (Some r)) ++
     match result (get_run_status cfg run_id (Some r)) with
     | Done status =>
         if truthy status then
           Print [Lit "Current status: "; Fmt status] ::
           (if is_terminal status
            then [Print [Lit nl; Lit "Run finished with status: "; Fmt status]]
            else Sleep POLL_INTERVAL_SECONDS :: trace (monitor cfg run_id net))
         else []
     | _ => []
     end)%list /\
  result (monitor cfg run_id (r :: net)) =
    match result (get_run_status cfg run_id (Some r)) with
    | Done status =>
        if truthy status then
          if is_terminal status then Done tt else result (monitor cfg run_id net)
        else Done tt
    | Raised e => Raised e
    | Waiting => Waiting
    end.
Proof.
  cbn [monitor]. rewrite trace_bind, result_bind.
  destruct (result (get_run_status cfg run_id (Some r))) as [status| |].
  - destruct (truthy status); [|split; reflexivity].
    io_simp. destruct (is_terminal status); io_simp; split; reflexivity.
  - rewrite app_nil_r. split; reflexivity.
  - rewrite app_nil_r. split; reflexivity.
Qed.

(** C4 (as the code has it). For a 200 response whose JSON body holds the
    created resource under "run", [launch_run] returns the resource's
    identifier; its status is printed, not returned.  For the body
    {"run": {"run_id": "r1", "status": "QUEUED"}} it returns "r1". *)
Theorem launch_run_returns_identifier :
  (forall cfg a p t ms ic cc r run id st,
     carries_run r run ->
     run !! "run_id" = Some id ->
     run !! "status" = Some st ->
     let out := launch_run cfg a p t ms ic cc (Some (Answer r)) in
     result out = Done id /\
     In (Print [Lit "Status: "; Fmt st]) (trace out) /\
     length (requests_of (trace out)) = 1%nat) /\
  (forall cfg a p t ms ic cc,
     result (launch_run cfg a p t ms ic cc (Some (Answer (run_response "r1" "QUEUED"))))
     = Done (PStr "r1")).
Proof.
  split.
  - intros cfg a p t ms ic cc r run id st Hrun Hid Hst.
    pose proof (launch_run_ok cfg a p t ms ic cc r run Hrun) as H.
    cbv zeta in *. rewrite Hid, Hst in H. exact H.
  - intros cfg a p t ms ic cc.
    pose proof (launch_run_ok cfg a p t ms ic cc (run_response "r1" "QUEUED")
                  {[ "run_id" := PStr "r1"; "status" := PStr "QUEUED" ]}) as H.
    cbv zeta in H. apply H. split; [reflexivity|].
    eexists. split; reflexivity.
Qed.

Lemma launch_run_returns_identifier_witness :
  let out := launch_run example_config "agent" "persona" "testset" [] 1 1
               (Some (Answer (run_response "r1" "QUEUED"))) in
  result out = Done (PStr "r1") /\
  In (Print [Lit "Status: "; Fmt (PStr "QUEUED")]) (trace out) /\
  length (requests_of (trace out)) = 1%nat.
Proof.
  destruct launch_run_returns_identifier as [H _].
  apply (H example_config "agent" "persona" "testset" [] 1 1
           (run_response "r1" "QUEUED")
           {[ "run_id" := PStr "r1"; "status" := PStr "QUEUED" ]}).
  - split; [reflexivity|]. eexists. split; reflexivity.
  - reflexivity.
  - reflexivity.
Defined.

(** C4 as stated fails: the value [launch_run] returns does not carry the
    status.  Two responses for the same run that differ in their status
    make it return the same value, so no status can be read off it. *)
Lemma launch_run_status_not_returned :
  ~ exists status_of : pyval -> pyval,
      forall st,
        exists v,
          result (launch_run example_config "agent" "persona" "testset" [] 1 1
                    (Some (Answer (run_response "r1" st)))) = Done v /\
          status_of v = PStr st.
Proof.
  intros (status_of & H).
  destruct (H "QUEUED") as (v1 & Hv1 & Hs1).
  destruct (H "RUNNING") as (v2 & Hv2 & Hs2).
  vm_compute in Hv1, Hv2. injection Hv1 as <-. injection Hv2 as <-.
  rewrite Hs1 in Hs2. discriminate Hs2.
Qed.

Lemma requests_of_app t1 t2 :
  requests_of (t1 ++ t2) = (requests_of t1 ++ requests_of t2)%list.
Proof. apply List.filter_app. Qed.

Lemma main_configured cfg net :
  configured cfg ->
  main cfg net =
    (run_id ← launch_run cfg (AGENT_ID cfg) (PERSONA_ID cfg) (TEST_SET_ID cfg)
                (METRIC_IDS cfg) (ITERATION_COUNT cfg) (CONCURRENCY cfg) (head net);
     (if truthy run_id then ret tt else print [Lit "Failed to launch run"];; sys_exit 1);;
     print [Lit nl; Lit "Monitoring run status..."];;
     monitor cfg run_id (tail net)).
Proof.
  intros (H1 & H2 & H3 & H4). unfold main, exit_if.
  apply String.eqb_neq in H1, H2, H3, H4. rewrite H1, H2, H3, H4.
  rewrite !bind_ret. reflexivity.
Qed.

(** C5. When the response status is not 200, and when the request times
    out or fails on the network, [launch_run] returns None after a single
    request, and [main] then exits with status 1 without another one. *)
Theorem submission_failure_is_final :
  (forall cfg a p t ms ic cc r,
     failed r ->
     let out := launch_run cfg a p t ms ic cc (Some r) in
     result out = Done PNone /\ length (requests_of (trace out)) = 1%nat) /\
  (forall cfg r net,
     configured cfg ->
     failed r ->
     let out := main cfg (r :: net) in
     exit_status (result out) = Some 1 /\ length (requests_of (trace out)) = 1%nat).
Proof.
  split.
  - intros. apply launch_run_failed. assumption.
  - intros cfg r net Hcfg Hfail. cbv zeta. rewrite (main_configured _ _ Hcfg).
    cbn [head].
    destruct (launch_run_failed cfg (AGENT_ID cfg) (PERSONA_ID cfg) (TEST_SET_ID cfg)
                (METRIC_IDS cfg) (ITERATION_COUNT cfg) (CONCURRENCY cfg) r Hfail)
      as [Hres Hreq].
    rewrite result_bind, trace_bind, Hres. cbn [truthy].
    split; [reflexivity|].
    rewrite requests_of_app, length_app, Hreq. reflexivity.
Qed.

Lemma submission_failure_is_final_witness :
  let out := main example_config [Answer (Response 500 "Internal Server Error" None)] in
  exit_status (result out) = Some 1 /\ length (requests_of (trace out)) = 1%nat.
Proof.
  destruct submission_failure_is_final as [_ H].
  apply (H example_config (Answer (Response 500 "Internal Server Error" None)) []).
  - repeat split; discriminate.
  - cbn. discriminate.
Defined.

Lemma status_response_reply status :
  status_reply (Answer (status_response status)) (PStr status).
Proof.
  exists (status_response status), {[ "status" := PStr status ]}.
  split; [reflexivity|]. split; [|reflexivity].
  split; [reflexivity|]. eexists. split; reflexivity.
Qed.

Lemma is_terminal_truthy status : is_terminal status = true -> truthy status = true.
Proof.
  destruct status as [| | | |s| |]; try discriminate.
  destruct s; [discriminate | reflexivity].
Qed.

Lemma monitor_continue cfg run_id r status net :
  status_reply r status -> continuing status ->
  trace (monitor cfg run_id (r :: net)) =
    (iteration cfg run_id status ++ trace (monitor cfg run_id net))%list /\
  result (monitor cfg run_id (r :: net)) = result (monitor cfg run_id net).
Proof.
  intros Hr [Htruthy Hterm].
  destruct (get_run_status_ok cfg run_id r status Hr) as [Ht Hres].
  destruct (monitor_unfold cfg run_id r net) as [-> ->].
  rewrite Ht, Hres, Htruthy, Hterm. split; reflexivity.
Qed.

Lemma monitor_terminal cfg run_id r status net :
  status_reply r status -> is_terminal status = true ->
  trace (monitor cfg run_id (r :: net)) = final_iteration cfg run_id status /\
  result (monitor cfg run_id (r :: net)) = Done tt.
Proof.
  intros Hr Hterm.
  destruct (get_run_status_ok cfg run_id r status Hr) as [Ht Hres].
  destruct (monitor_unfold cfg run_id r net) as [-> ->].
  rewrite Ht, Hres, (is_terminal_truthy _ Hterm), Hterm. split; reflexivity.
Qed.

Lemma monitor_failed cfg run_id r net :
  failed r ->
  trace (monitor cfg run_id (r :: net)) = [query cfg run_id; failure_report r] /\
  result (monitor cfg run_id (r :: net)) = Done tt.
Proof.
  intros Hfail.
  destruct (get_run_status_failed cfg run_id r Hfail) as [Ht Hres].
  destruct (monitor_unfold cfg run_id r net) as [-> ->].
  rewrite Ht, Hres. split; reflexivity.
Qed.

Lemma requests_of_iterations cfg run_id sts :
  length (requests_of (iterations cfg run_id sts)) = length sts.
Proof.
  induction sts as [|s sts IH]; [reflexivity|].
  unfold iterations in *. cbn [fmap list_fmap concat].
  rewrite requests_of_app, length_app, IH. reflexivity.
Qed.

(** Polling through a prefix of statuses that all go on. *)
Lemma monitor_prefix cfg run_id pre sts net :
  Forall2 status_reply pre sts -> Forall continuing sts ->
  trace (monitor cfg run_id (pre ++ net)) =
    (iterations cfg run_id sts ++ trace (monitor cfg run_id net))%list /\
  result (monitor cfg run_id (pre ++ net)) = result (monitor cfg run_id net).
Proof.
  intros Hpre. induction Hpre as [|r s pre sts Hr _ IH]; intros Hcont.
  - split; reflexivity.
  - apply Forall_cons_1 in Hcont as [Hs Hcont]. destruct (IH Hcont) as [IHt IHr].
    cbn [app]. destruct (monitor_continue cfg run_id r s (pre ++ net) Hr Hs) as [-> ->].
    rewrite IHt, IHr. split; [|reflexivity].
    unfold iterations. cbn [fmap list_fmap concat]. rewrite <- app_assoc. reflexivity.
Qed.

Lemma in_terminal_set_is_terminal status :
  in_terminal_set status <-> is_terminal status = true.
Proof.
  split.
  - intros (s & -> & Hin). unfold terminal_set in Hin. cbn [In] in Hin.
    destruct Hin as [<-|[<-|[<-|[]]]]; reflexivity.
  - intros H. destruct status as [| | | |s| |]; try discriminate H.
    exists s. split; [reflexivity|].
    unfold is_terminal in H. cbn [existsb eq_str] in H.
    unfold terminal_set. cbn [In].
    destruct (String.eqb s "COMPLETED") eqn:E1; [apply String.eqb_eq in E1; auto|].
    destruct (String.eqb s "FAILED") eqn:E2; [apply String.eqb_eq in E2; auto|].
    destruct (String.eqb s "CANCELLED") eqn:E3; [apply String.eqb_eq in E3; auto|].
    discriminate H.
Qed.

Lemma status_name_continuing status :
  status_name status -> ~ in_terminal_set status -> continuing status.
Proof.
  intros (s & -> & Hne) Hnt. split.
  - destruct s; [contradiction | reflexivity].
  - destruct (is_terminal (PStr s)) eqn:Ht; [|reflexivity].
    exfalso. apply Hnt, in_terminal_set_is_terminal. assumption.
Qed.

(** C6. For every finite sequence of successful status query results the
    poller sends one query per iteration, sleeps POLL_INTERVAL_SECONDS
    between two iterations, and halts exactly at the first status that
    is in {"COMPLETED", "FAILED", "CANCELLED"}, which it reports; for
    "QUEUED", "RUNNING", "COMPLETED" it sends exactly three queries and
    reports "COMPLETED". *)
Theorem poller_halts_at_first_terminal :
  (forall cfg run_id pre sts r status net,
     Forall2 status_reply pre sts ->
     Forall (fun s => status_name s /\ ~ in_terminal_set s) sts ->
     status_reply r status ->
     in_terminal_set status ->
     let out := monitor cfg run_id (pre ++ r :: net) in
     trace out = (iterations cfg run_id sts ++ final_iteration cfg run_id status)%list /\
     result out = Done tt /\
     length (requests_of (trace out)) = S (length pre)) /\
  (forall cfg run_id net,
     let out := monitor cfg run_id
                  (Answer (status_response "QUEUED") ::
                   Answer (status_response "RUNNING") ::
                   Answer (status_response "COMPLETED") :: net) in
     length (requests_of (trace out)) = 3%nat /\
     last (trace out) =
       Some (Print [Lit nl; Lit "Run finished with status: "; Fmt (PStr "COMPLETED")]) /\
     result out = Done tt).
Proof.
  assert (Hgen : forall cfg run_id pre sts r status net,
     Forall2 status_reply pre sts ->
     Forall (fun s => status_name s /\ ~ in_terminal_set s) sts ->
     status_reply r status ->
     in_terminal_set status ->
     let out := monitor cfg run_id (pre ++ r :: net) in
     trace out = (iterations cfg run_id sts ++ final_iteration cfg run_id status)%list /\
     result out = Done tt /\
     length (requests_of (trace out)) = S (length pre)).
  { intros cfg run_id pre sts r status net Hpre Hnames Hr Hterm. cbv zeta.
    assert (Hcont : Forall continuing sts).
    { eapply Forall_impl; [exact Hnames|].
      intros s [Hn Hnt]. apply status_name_continuing; assumption. }
    apply in_terminal_set_is_terminal in Hterm.
    destruct (monitor_prefix cfg run_id pre sts (r :: net) Hpre Hcont) as [-> ->].
    destruct (monitor_terminal cfg run_id r status net Hr Hterm) as [-> ->].
    repeat split.
    rewrite requests_of_app, length_app, requests_of_iterations.
    rewrite (Forall2_length _ _ _ Hpre). cbn. lia. }
  split; [exact Hgen|].
  intros cfg run_id net.
  destruct (Hgen cfg run_id
              [Answer (status_response "QUEUED"); Answer (status_response "RUNNING")]
              [PStr "QUEUED"; PStr "RUNNING"]
              (Answer (status_response "COMPLETED")) (PStr "COMPLETED") net)
    as (Ht & Hres & Hreq).
  - repeat constructor; apply status_response_reply.
  - repeat constructor; try (eexists; split; [reflexivity | discriminate]);
      intros (s & [= <-] & Hin); cbn in Hin; intuition discriminate.
  - apply status_response_reply.
  - exists "COMPLETED". split; [reflexivity | left; reflexivity].
  - cbv zeta. cbn [app] in Ht, Hres, Hreq. rewrite Hreq, Hres. rewrite Ht.
    repeat split.
Qed.

Lemma poller_halts_at_first_terminal_witness :
  let out := monitor example_config (PStr "r1")
               [Answer (status_response "QUEUED"); Answer (status_response "COMPLETED")] in
  trace out =
    (iterations example_config (PStr "r1") [PStr "QUEUED"] ++
     final_iteration example_config (PStr "r1") (PStr "COMPLETED"))%list /\
  result out = Done tt /\
  length (requests_of (trace out)) = 2%nat.
Proof.
  destruct poller_halts_at_first_terminal as [H _].
  apply (H example_config (PStr "r1") [Answer (status_response "QUEUED")]
           [PStr "QUEUED"] (Answer (status_response "COMPLETED")) (PStr "COMPLETED") []).
  - repeat constructor. apply status_response_reply.
  - repeat constructor; try (eexists; split; [reflexivity | discriminate]).
    intros (s & [= <-] & Hin). cbn in Hin. intuition discriminate.
  - apply status_response_reply.
  - exists "COMPLETED". split; [reflexivity | left; reflexivity].
Defined.

(** Once a query has failed no later reply is asked for: with a failed
    reply at position [k] the poller sends at most [k + 1] queries, and it
    does not stay blocked. *)
Lemma monitor_bounded cfg run_id : forall net k r,
  net !! k = Some r -> failed r ->
  (length (requests_of (trace (monitor cfg run_id net))) <= S k)%nat /\
  result (monitor cfg run_id net) <> Waiting.
Proof.
  induction net as [|x net IH]; intros k r Hk Hfail; [discriminate Hk|].
  destruct k as [|k].
  - injection Hk as ->.
    destruct (monitor_failed cfg run_id r net Hfail) as [-> ->].
    split; [destruct r; cbn; lia | discriminate].
  - cbn in Hk. destruct (IH k r Hk Hfail) as [IHlen IHres].
    destruct (monitor_unfold cfg run_id x net) as [-> ->].
    destruct (get_run_status_once cfg run_id x) as [Hone Hnw].
    rewrite requests_of_app, length_app, Hone.
    destruct (result (get_run_status cfg run_id (Some x))) as [status| |].
    + destruct (truthy status); [|split; [cbn; lia | discriminate]].
      destruct (is_terminal status); [split; [cbn; lia | discriminate]|].
      split; [|assumption].
      change (requests_of (Print [Lit "Current status: "; Fmt status]
                :: Sleep POLL_INTERVAL_SECONDS :: trace (monitor cfg run_id net)))
        with (requests_of (trace (monitor cfg run_id net))).
      cbn [length]. lia.
    + split; [cbn; lia | discriminate].
    + contradiction.
Qed.

(** C7. When a query fails (timeout, network error or a status other than
    200) the poller stops at that query: it sends no query after it and
    prints the failure, the last status known being the last one it has
    printed.  With a timeout at the second query it stops after two. *)
Theorem poller_stops_at_failed_query :
  (forall cfg run_id net k r,
     net !! k = Some r -> failed r ->
     let out := monitor cfg run_id net in
     (length (requests_of (trace out)) <= S k)%nat /\ result out <> Waiting) /\
  (forall cfg run_id pre sts r net,
     Forall2 status_reply pre sts ->
     Forall continuing sts ->
     failed r ->
     let out := monitor cfg run_id (pre ++ r :: net) in
     trace out = (iterations cfg run_id sts ++ [query cfg run_id; failure_report r])%list /\
     result out = Done tt /\
     length (requests_of (trace out)) = S (length pre)) /\
  (forall cfg run_id net,
     let out := monitor cfg run_id (Answer (status_response "QUEUED") :: TimedOut :: net) in
     length (requests_of (trace out)) = 2%nat /\
     last (trace out) = Some (failure_report TimedOut) /\
     result out = Done tt).
Proof.
  assert (Hgen : forall cfg run_id pre sts r net,
     Forall2 status_reply pre sts ->
     Forall continuing sts ->
     failed r ->
     let out := monitor cfg run_id (pre ++ r :: net) in
     trace out = (iterations cfg run_id sts ++ [query cfg run_id; failure_report r])%list /\
     result out = Done tt /\
     length (requests_of (trace out)) = S (length pre)).
  { intros cfg run_id pre sts r net Hpre Hcont Hfail. cbv zeta.
    destruct (monitor_prefix cfg run_id pre sts (r :: net) Hpre Hcont) as [-> ->].
    destruct (monitor_failed cfg run_id r net Hfail) as [-> ->].
    repeat split.
    rewrite requests_of_app, length_app, requests_of_iterations.
    rewrite (Forall2_length _ _ _ Hpre). destruct r; cbn; lia. }
  split; [|split; [exact Hgen|]].
  - intros cfg run_id net k r Hk Hfail. cbv zeta.
    exact (monitor_bounded cfg run_id net k r Hk Hfail).
  - intros cfg run_id net.
    destruct (Hgen cfg run_id [Answer (status_response "QUEUED")] [PStr "QUEUED"]
                TimedOut net) as (Ht & Hres & Hreq).
    + repeat constructor. apply status_response_reply.
    + repeat constructor.
    + exact I.
    + cbv zeta. cbn [app] in Ht, Hres, Hreq. rewrite Hreq, Hres, Ht.
      repeat split.
Qed.

Lemma poller_stops_at_failed_query_witness :
  let out := monitor example_config (PStr "r1")
               [Answer (status_response "QUEUED"); TimedOut;
                Answer (status_response "COMPLETED")] in
  trace out =
    (iterations example_config (PStr "r1") [PStr "QUEUED"] ++
     [query example_config (PStr "r1"); failure_report TimedOut])%list /\
  result out = Done tt /\
  length (requests_of (trace out)) = 2%nat.
Proof.
  destruct poller_stops_at_failed_query as (_ & H & _).
  apply (H example_config (PStr "r1") [Answer (status_response "QUEUED")]
           [PStr "QUEUED"] TimedOut [Answer (status_response "COMPLETED")]).
  - repeat constructor. apply status_response_reply.
  - repeat constructor.
  - exact I.
Defined.

End RunLauncher.

(** ** Placeholder configuration *)

Lemma exit_if_true {B} line (k : unit -> io B) :
  (LaunchRun.exit_if true line ≫= k) = IO [Print line] (Raised (SystemExit 1)).
Proof. reflexivity. Qed.

Lemma vapi_exit_if_true {B} line (k : unit -> io B) :
  (VapiUpload.exit_if true line ≫= k) = IO [Print line] (Raised (SystemExit 1)).
Proof. reflexivity. Qed.

Lemma exit_if_false {B} line (k : unit -> io B) :
  (LaunchRun.exit_if false line ≫= k) = k tt.
Proof. unfold LaunchRun.exit_if. apply bind_ret. Qed.

Lemma vapi_exit_if_false {B} line (k : unit -> io B) :
  (VapiUpload.exit_if false line ≫= k) = k tt.
Proof. unfold VapiUpload.exit_if. apply bind_ret. Qed.

Lemma halted_exit line : halted_before_network (IO [Print line] (Raised (SystemExit 1))).
Proof. split; [eexists; reflexivity | split; reflexivity]. Qed.

(** C9. When a required identifier or API key still has its placeholder
    value, [main] reports it and exits with status 1 before any request
    is sent, in launch_run.py and in vapi_upload.py. *)
Theorem placeholder_halts_before_network :
  (forall cfg net,
     launch_run_placeholder cfg -> halted_before_network (LaunchRun.main cfg net)) /\
  (forall cfg now net,
     vapi_upload_placeholder cfg -> halted_before_network (VapiUpload.main cfg now net)).
Proof.
  split.
  - intros cfg net H. unfold LaunchRun.main.
    destruct (String.eqb_spec (LaunchRun.COVAL_API_KEY cfg) "your_coval_api_key") as [|N1];
      [rewrite exit_if_true; apply halted_exit|].
    rewrite exit_if_false.
    destruct (String.eqb_spec (LaunchRun.AGENT_ID cfg) "your_agent_id") as [|N2];
      [rewrite exit_if_true; apply halted_exit|].
    rewrite exit_if_false.
    destruct (String.eqb_spec (LaunchRun.PERSONA_ID cfg) "your_persona_id") as [|N3];
      [rewrite exit_if_true; apply halted_exit|].
    rewrite exit_if_false.
    destruct (String.eqb_spec (LaunchRun.TEST_SET_ID cfg) "your_test_set_id") as [|N4];
      [rewrite exit_if_true; apply halted_exit|].
    exfalso. destruct H as [H|[H|[H|H]]]; contradiction.
  - intros cfg now net H. unfold VapiUpload.main.
    destruct (String.eqb_spec (VapiUpload.VAPI_API_KEY cfg) "your_vapi_api_key") as [|N1];
      [rewrite vapi_exit_if_true; apply halted_exit|].
    rewrite vapi_exit_if_false.
    destruct (String.eqb_spec (VapiUpload.COVAL_API_KEY cfg) "your_coval_api_key") as [|N2];
      [rewrite vapi_exit_if_true; apply halted_exit|].
    rewrite vapi_exit_if_false.
    destruct (String.eqb_spec (VapiUpload.CALL_ID cfg) "your_vapi_call_id") as [|N3];
      [rewrite vapi_exit_if_true; apply halted_exit|].
    exfalso. destruct H as [H|[H|H]]; contradiction.
Qed.

Lemma placeholder_halts_before_network_witness :
  halted_before_network
    (LaunchRun.main
       (LaunchRun.Config "key" "your_agent_id" "persona" "testset" [] 1 1)
       [Answer (Response 200 "" None)]).
Proof.
  destruct placeholder_halts_before_network as [H _].
  apply H. right. left. reflexivity.
Defined.

(** ** The rest of launch_run.py *)

Section LaunchRunFacts.
Import LaunchRun.

Create Rewrite HintDb io_launch.
#[local] Hint Rewrite @result_print @trace_print @result_emit @trace_emit
  @result_try_except @trace_try_except @result_send @trace_send
  @bind_ret @result_ret @trace_ret py_get_dict : io_launch.

Ltac io_simp := repeat (autorewrite with io_launch; cbv beta).

(** Whatever the network answers, [launch_run] sends its one request. *)
Lemma launch_run_requests cfg a p t ms ic cc net :
  requests_of (trace (launch_run cfg a p t ms ic cc net)) =
  [launch_request cfg a p t ms ic cc].
Proof.
  unfold launch_run, response_json, launch_request, launch_payload.
  destruct net as [[[code txt js]| |msg]|]; io_simp; cbn [status_code json];
    try reflexivity.
  destruct (Z.eqb code 200); io_simp; [|reflexivity].
  destruct js as [v|]; io_simp; [|reflexivity].
  destruct v as [| | | | | |body]; try reflexivity.
  io_simp.
  destruct (default (PDict ∅) (body !! "run")) as [| | | | | |run]; reflexivity.
Qed.

(** X1. [launch_run] sends exactly one request, whatever the network
    answers: a POST to the runs endpoint with the API key header and the
    30 second timeout, whose body holds the three identifiers and the
    options, "metric_ids" exactly when the list of metrics is not empty,
    and no other field. *)
Theorem launch_run_posts_only_caller_fields cfg a p t ms ic cc net :
  exists payload : dict,
    requests_of (trace (launch_run cfg a p t ms ic cc net)) =
      [Request POST [Lit RUNS_API_URL] (Some (PDict payload)) (headers_of cfg) 30] /\
    headers_of cfg !! "X-API-Key" = Some [Lit (COVAL_API_KEY cfg)] /\
    dom payload =
      {[ "agent_id"; "persona_id"; "test_set_id"; "options" ]} ∪
      (match ms with [] => ∅ | _ => {[ "metric_ids" ]} end : gset string) /\
    payload !! "agent_id" = Some (PStr a) /\
    payload !! "persona_id" = Some (PStr p) /\
    payload !! "test_set_id" = Some (PStr t) /\
    payload !! "options" =
      Some (PDict {[ "iteration_count" := PInt ic; "concurrency" := PInt cc ]}) /\
    (ms <> [] -> payload !! "metric_ids" = Some (PList (PStr <$> ms))).
Proof.
  exists (launch_payload a p t ms ic cc).
  split; [apply launch_run_requests|].
  split; [reflexivity|].
  unfold launch_payload. destruct ms as [|m ms].
  - split; [rewrite !dom_insert_L, dom_singleton_L; set_solver|].
    repeat split; by simplify_map_eq.
  - split; [rewrite !dom_insert_L, dom_singleton_L; set_solver|].
    repeat split; by simplify_map_eq.
Qed.

(** Whatever the network answers, or if it never does, a status query
    sends its request and neither sleeps nor sends another. *)
Lemma get_run_status_actions cfg run_id net :
  actions_of (trace (get_run_status cfg run_id net)) = [query cfg run_id].
Proof.
  unfold get_run_status, response_json.
  destruct net as [[[code txt js]| |msg]|]; io_simp; cbn [status_code json];
    try reflexivity.
  destruct (Z.eqb code 200); io_simp; [|reflexivity].
  destruct js as [v|]; io_simp; [|reflexivity].
  destruct v as [| | | | | |body]; try reflexivity.
  io_simp.
  destruct (default (PDict ∅) (body !! "run")) as [| | | | | |run]; reflexivity.
Qed.

Lemma actions_of_app t1 t2 :
  actions_of (t1 ++ t2) = (actions_of t1 ++ actions_of t2)%list.
Proof. apply List.filter_app. Qed.

(** X2. Whatever the network answers, the requests and sleeps of the
    polling loop alternate strictly: a status query for the run, then,
    as long as the loop goes on, a sleep of POLL_INTERVAL_SECONDS and
    the next query.  The loop never sleeps after its last query, never
    sends two queries without a sleep between them, and sends at most
    one query more than the network has answered. *)
Theorem polling_alternates cfg run_id net :
  exists n,
    (n <= length net)%nat /\
    actions_of (trace (monitor cfg run_id net)) = polling cfg run_id n.
Proof.
  induction net as [|r net IH].
  - exists 0%nat. split; [reflexivity|].
    cbn [monitor]. rewrite trace_bind.
    destruct (result (get_run_status cfg run_id None));
      rewrite ?trace_ret, ?app_nil_r; apply get_run_status_actions.
  - destruct IH as (n & Hn & IH).
    destruct (monitor_unfold cfg run_id r net) as [-> _].
    rewrite actions_of_app, get_run_status_actions.
    destruct (result (get_run_status cfg run_id (Some r))) as [status| |];
      try (exists 0%nat; split; [cbn; lia | reflexivity]).
    destruct (truthy status); [|exists 0%nat; split; [cbn; lia | reflexivity]].
    destruct (is_terminal status); [exists 0%nat; split; [cbn; lia | reflexivity]|].
    exists (S n). split; [cbn; lia|].
    change (actions_of (Print [Lit "Current status: "; Fmt status]
              :: Sleep POLL_INTERVAL_SECONDS :: trace (monitor cfg run_id net)))
      with (Sleep POLL_INTERVAL_SECONDS :: actions_of (trace (monitor cfg run_id net))).
    rewrite IH. reflexivity.
Qed.

Lemma launch_run_actions cfg a p t ms ic cc net :
  actions_of (trace (launch_run cfg a p t ms ic cc net)) =
  [launch_request cfg a p t ms ic cc].
Proof.
  unfold launch_run, response_json, launch_request, launch_payload.
  destruct net as [[[code txt js]| |msg]|]; io_simp; cbn [status_code json];
    try reflexivity.
  destruct (Z.eqb code 200); io_simp; [|reflexivity].
  destruct js as [v|]; io_simp; [|reflexivity].
  destruct v as [| | | | | |body]; try reflexivity.
  io_simp.
  destruct (default (PDict ∅) (body !! "run")) as [| | | | | |run]; reflexivity.
Qed.

Lemma launch_run_described cfg a p t ms ic cc r run :
  describes_run r run ->
  result (launch_run cfg a p t ms ic cc (Some (Answer r))) =
  Done (default PNone (run !! "run_id")).
Proof.
  intros (Hcode & body & Hjson & Hrun).
  unfold launch_run, response_json. io_simp. rewrite Hcode, Hjson.
  cbn [Z.eqb Pos.eqb]. io_simp. rewrite Hrun. io_simp. reflexivity.
Qed.

Lemma carries_describes r run : carries_run r run -> describes_run r run.
Proof.
  intros (Hcode & body & Hjson & Hrun). split; [assumption|].
  exists body. rewrite Hrun. auto.
Qed.

(** [main] once the launch has returned an identifier. *)
Lemma main_after_launch cfg r run net :
  configured cfg ->
  describes_run r run ->
  truthy (default PNone (run !! "run_id")) = true ->
  trace (main cfg (Answer r :: net)) =
    (trace (launch_run cfg (AGENT_ID cfg) (PERSONA_ID cfg) (TEST_SET_ID cfg)
              (METRIC_IDS cfg) (ITERATION_COUNT cfg) (CONCURRENCY cfg) (Some (Answer r))) ++
     Print [Lit nl; Lit "Monitoring run status..."] ::
     trace (monitor cfg (default PNone (run !! "run_id")) net))%list /\
  result (main cfg (Answer r :: net)) =
    result (monitor cfg (default PNone (run !! "run_id")) net).
Proof.
  intros Hcfg Hrun Hid. rewrite (main_configured _ _ Hcfg). cbn [head tail].
  rewrite trace_bind, result_bind, (launch_run_described _ _ _ _ _ _ _ _ _ Hrun), Hid.
  rewrite bind_ret, trace_print, result_print. split; reflexivity.
Qed.

(** X3. Once the configuration is filled in and the launch is answered
    with a run that has an identifier, everything [main] does to the
    outside world is: post the launch request, then poll that very
    identifier, with a sleep between two polls. *)
Theorem main_polls_the_launched_run cfg r run net :
  configured cfg ->
  describes_run r run ->
  truthy (default PNone (run !! "run_id")) = true ->
  exists n,
    (n <= length net)%nat /\
    actions_of (trace (main cfg (Answer r :: net))) =
      launch_request cfg (AGENT_ID cfg) (PERSONA_ID cfg) (TEST_SET_ID cfg)
        (METRIC_IDS cfg) (ITERATION_COUNT cfg) (CONCURRENCY cfg)
      :: polling cfg (default PNone (run !! "run_id")) n.
Proof.
  intros Hcfg Hrun Hid.
  destruct (main_after_launch cfg r run net Hcfg Hrun Hid) as [-> _].
  destruct (polling_alternates cfg (default PNone (run !! "run_id")) net) as (n & Hn & Hpoll).
  exists n. split; [assumption|].
  rewrite actions_of_app, launch_run_actions.
  change (actions_of (Print [Lit nl; Lit "Monitoring run status..."] :: ?t))
    with (actions_of t).
  cbn [app]. f_equal.
  exact Hpoll.
Qed.

Lemma main_polls_the_launched_run_witness :
  exists n,
    (n <= 1)%nat /\
    actions_of (trace (main example_config
                         [Answer (run_response "r1" "QUEUED");
                          Answer (status_response "COMPLETED")])) =
      launch_request example_config "agent" "persona" "testset" [] 1 1
      :: polling example_config (PStr "r1") n.
Proof.
  destruct (main_polls_the_launched_run example_config (run_response "r1" "QUEUED")
              {[ "run_id" := PStr "r1"; "status" := PStr "QUEUED" ]}
              [Answer (status_response "COMPLETED")]) as (n & Hn & H).
  - repeat split; discriminate.
  - split; [reflexivity|]. eexists. split; reflexivity.
  - reflexivity.
  - exists n. split; [exact Hn | exact H].
Defined.

(** X4. The exit status of [main] does not tell how the run ended: when
    polling stops at a terminal status, "FAILED" and "CANCELLED"
    included, or at a status query that failed, the process ends with
    exit status 0. *)
Theorem main_exit_status_ignores_run_outcome cfg r run pre sts last net :
  configured cfg ->
  describes_run r run ->
  truthy (default PNone (run !! "run_id")) = true ->
  Forall2 status_reply pre sts ->
  Forall continuing sts ->
  (exists status, status_reply last status /\ is_terminal status = true) \/ failed last ->
  exit_status (result (main cfg (Answer r :: pre ++ last :: net))) = Some 0.
Proof.
  intros Hcfg Hrun Hid Hpre Hcont Hlast.
  destruct (main_after_launch cfg r run (pre ++ last :: net) Hcfg Hrun Hid) as [_ ->].
  destruct (monitor_prefix cfg (default PNone (run !! "run_id")) pre sts (last :: net)
              Hpre Hcont) as [_ ->].
  destruct Hlast as [(status & Hst & Hterm)|Hfail].
  - destruct (monitor_terminal cfg (default PNone (run !! "run_id")) last status net
                Hst Hterm) as [_ ->]. reflexivity.
  - destruct (monitor_failed cfg (default PNone (run !! "run_id")) last net Hfail)
      as [_ ->]. reflexivity.
Qed.

Lemma main_exit_status_ignores_run_outcome_witness :
  exit_status (result (main example_config
                         [Answer (run_response "r1" "QUEUED");
                          Answer (status_response "RUNNING");
                          Answer (status_response "FAILED")])) = Some 0.
Proof.
  apply (main_exit_status_ignores_run_outcome example_config (run_response "r1" "QUEUED")
           {[ "run_id" := PStr "r1"; "status" := PStr "QUEUED" ]}
           [Answer (status_response "RUNNING")] [PStr "RUNNING"]
           (Answer (status_response "FAILED")) []).
  - repeat split; discriminate.
  - split; [reflexivity|]. eexists. split; reflexivity.
  - reflexivity.
  - repeat constructor. apply status_response_reply.
  - repeat constructor.
  - left. exists (PStr "FAILED"). split; [apply status_response_reply | reflexivity].
Defined.

(** X5. A 200 answer to the launch whose body names no run identifier
    (no "run" object, no "run_id" in it, or an empty one) is handled like
    a failed launch: [main] prints "Failed to launch run" and exits with
    status 1 after its one request, without polling. *)
Theorem launch_without_identifier_is_failure cfg r run net :
  configured cfg ->
  describes_run r run ->
  truthy (default PNone (run !! "run_id")) = false ->
  let out := main cfg (Answer r :: net) in
  exit_status (result out) = Some 1 /\
  last (trace out) = Some (Print [Lit "Failed to launch run"]) /\
  actions_of (trace out) =
    [launch_request cfg (AGENT_ID cfg) (PERSONA_ID cfg) (TEST_SET_ID cfg)
       (METRIC_IDS cfg) (ITERATION_COUNT cfg) (CONCURRENCY cfg)].
Proof.
  intros Hcfg Hrun Hid. cbv zeta. rewrite (main_configured _ _ Hcfg). cbn [head tail].
  rewrite trace_bind, result_bind, (launch_run_described _ _ _ _ _ _ _ _ _ Hrun), Hid.
  split; [reflexivity|]. split.
  - apply last_snoc.
  - rewrite actions_of_app, launch_run_actions. reflexivity.
Qed.

Lemma launch_without_identifier_is_failure_witness :
  let out := main example_config
               [Answer (Response 200 "{}" (Some (PDict ∅)));
                Answer (status_response "COMPLETED")] in
  exit_status (result out) = Some 1 /\
  last (trace out) = Some (Print [Lit "Failed to launch run"]) /\
  actions_of (trace out) = [launch_request example_config "agent" "persona" "testset" [] 1 1].
Proof.
  apply (launch_without_identifier_is_failure example_config
           (Response 200 "{}" (Some (PDict ∅))) ∅
           [Answer (status_response "COMPLETED")]).
  - repeat split; discriminate.
  - split; [reflexivity|]. exists ∅. split; reflexivity.
  - reflexivity.
Defined.

Lemma get_run_status_not_object cfg run_id r v :
  status_code r = 200 ->
  json r = Some v ->
  not_object v = true \/
    (exists body w, v = PDict body /\ body !! "run" = Some w /\ not_object w = true) ->
  result (get_run_status cfg run_id (Some (Answer r))) = Raised AttributeError.
Proof.
  intros Hcode Hjson Hv. unfold get_run_status, response_json. io_simp.
  rewrite Hcode, Hjson. cbn [Z.eqb Pos.eqb]. io_simp.
  destruct Hv as [Hv|(body & w & -> & Hrun & Hw)].
  - destruct v; try discriminate Hv; reflexivity.
  - io_simp. rewrite Hrun. destruct w; try discriminate Hw; reflexivity.
Qed.

(** X6. A 200 answer to a status query whose JSON body is not an object,
    or whose "run" is not an object, is not handled as a failed query:
    [get_run_status] lets the AttributeError escape, the polling loop
    stops there without sleeping or querying again, and the process ends
    with exit status 1. *)
Theorem status_body_not_object_crashes cfg run_id r v net :
  status_code r = 200 ->
  json r = Some v ->
  not_object v = true \/
    (exists body w, v = PDict body /\ body !! "run" = Some w /\ not_object w = true) ->
  let out := monitor cfg run_id (Answer r :: net) in
  result out = Raised AttributeError /\
  exit_status (result out) = Some 1 /\
  trace out = [query cfg run_id].
Proof.
  intros Hcode Hjson Hv. cbv zeta.
  pose proof (get_run_status_not_object cfg run_id r v Hcode Hjson Hv) as Hres.
  destruct (monitor_unfold cfg run_id (Answer r) net) as [Ht Hr].
  rewrite Hr, Ht, Hres. split; [reflexivity|]. split; [reflexivity|].
  rewrite app_nil_r.
  assert (Hact := get_run_status_actions cfg run_id (Some (Answer r))).
  revert Hres Hact. unfold get_run_status, response_json. io_simp.
  rewrite Hcode, Hjson. cbn [Z.eqb Pos.eqb]. io_simp.
  destruct Hv as [Hv|(body & w & -> & Hrun & Hw)].
  - destruct v; try discriminate Hv; reflexivity.
  - io_simp. rewrite Hrun. destruct w; try discriminate Hw; reflexivity.
Qed.

Lemma status_body_not_object_crashes_witness :
  let out := monitor example_config (PStr "r1")
               [Answer (Response 200 "[]" (Some (PList [])));
                Answer (status_response "COMPLETED")] in
  result out = Raised AttributeError /\
  exit_status (result out) = Some 1 /\
  trace out = [query example_config (PStr "r1")].
Proof.
  apply (status_body_not_object_crashes example_config (PStr "r1")
           (Response 200 "[]" (Some (PList []))) (PList [])
           [Answer (status_response "COMPLETED")]).
  - reflexivity.
  - reflexivity.
  - left. reflexivity.
Defined.

(** X20. A 200 answer to a status query whose run has no status, or an
    empty one, stops the polling loop like a failed query, but silently:
    after that one query nothing is printed, nothing more is sent, and
    the loop returns. *)
Theorem empty_status_halts_polling cfg run_id r run net :
  describes_run r run ->
  truthy (default PNone (run !! "status")) = false ->
  let out := monitor cfg run_id (Answer r :: net) in
  trace out = [query cfg run_id] /\ result out = Done tt.
Proof.
  intros (Hcode & body & Hjson & Hrun) Hfalsy. cbv zeta.
  assert (Hq : trace (get_run_status cfg run_id (Some (Answer r))) = [query cfg run_id] /\
               result (get_run_status cfg run_id (Some (Answer r)))
               = Done (default PNone (run !! "status"))).
  { unfold get_run_status, response_json. io_simp. rewrite Hcode, Hjson.
    cbn [Z.eqb Pos.eqb]. io_simp. rewrite Hrun. io_simp. split; reflexivity. }
  destruct Hq as [Ht Hres].
  destruct (monitor_unfold cfg run_id (Answer r) net) as [-> ->].
  rewrite Ht, Hres, Hfalsy. split; reflexivity.
Qed.

Lemma empty_status_halts_polling_witness :
  let out := monitor example_config (PStr "r1")
               [Answer (status_response ""); Answer (status_response "COMPLETED")] in
  trace out = [query example_config (PStr "r1")] /\ result out = Done tt.
Proof.
  apply (empty_status_halts_polling example_config (PStr "r1") (status_response "")
           {[ "status" := PStr "" ]} [Answer (status_response "COMPLETED")]).
  - split; [reflexivity|]. eexists. split; reflexivity.
  - reflexivity.
Defined.

End LaunchRunFacts.

(** ** The rest of vapi_upload.py *)

Section VapiUploadFacts.
Import VapiUpload.

Create Rewrite HintDb io_vapi.
#[local] Hint Rewrite @result_print @trace_print @result_emit @trace_emit
  @result_try_except @trace_try_except @result_send @trace_send
  @bind_ret @result_ret @trace_ret py_get_dict : io_vapi.

Ltac io_simp := repeat (autorewrite with io_vapi; cbv beta).

Lemma bind_assoc {A B C} (m : io A) (k : A -> io B) (k' : B -> io C) :
  (m ≫= k) ≫= k' = m ≫= (fun a => k a ≫= k').
Proof.
  unfold mbind, io_bind, bind. destruct m as [t [a| |]]; cbn [result trace]; try reflexivity.
  destruct (k a) as [t1 [b| |]]; cbn [result trace]; try reflexivity.
  rewrite app_assoc. reflexivity.
Qed.

Lemma py_slice_sliced v n : sliceable v = true -> py_slice v n = ret (sliced v n).
Proof. destruct v; try discriminate; reflexivity. Qed.

Lemma py_contains_dict k d :
  py_contains k (PDict d) = ret (match d !! k with Some _ => true | None => false end).
Proof.
  unfold py_contains. f_equal. destruct (d !! k).
  - apply bool_decide_true. eauto.
  - apply bool_decide_false. intros [? ?]. discriminate.
Qed.

(** [upload_to_coval] on call data it can handle: the preamble, then the
    exchange for the payload. *)
Lemma upload_to_coval_run cfg now d transcript net :
  uploadable d ->
  trace (upload_to_coval cfg now (PDict d) transcript net) =
    (upload_preamble d transcript ++
     trace (upload_exchange cfg (upload_payload cfg now d transcript) net))%list /\
  result (upload_to_coval cfg now (PDict d) transcript net) =
    result (upload_exchange cfg (upload_payload cfg now d transcript) net).
Proof.
  intros [Haudio Hcust].
  unfold upload_to_coval, upload_preamble, upload_payload, upload_metadata, upload_exchange.
  io_simp. fold (audio_of d).
  destruct (truthy (audio_of d)) eqn:Ha.
  - rewrite (py_slice_sliced _ 60 (Haudio eq_refl)), bind_ret, !bind_assoc. io_simp.
    rewrite !py_contains_dict. unfold py_getitem.
    destruct (d !! "customer") as [c|] eqn:Hc; destruct (d !! "endedReason") eqn:Hr;
      try (specialize (Hcust c eq_refl); destruct c; try discriminate Hcust);
      io_simp; split; reflexivity.
  - io_simp. rewrite !py_contains_dict. unfold py_getitem.
    destruct (d !! "customer") as [c|] eqn:Hc; destruct (d !! "endedReason") eqn:Hr;
      try (specialize (Hcust c eq_refl); destruct c; try discriminate Hcust);
      io_simp; split; reflexivity.
Qed.

Lemma actions_of_app' t1 t2 :
  actions_of (t1 ++ t2) = (actions_of t1 ++ actions_of t2)%list.
Proof. apply List.filter_app. Qed.

Lemma bodies_of_actions t : bodies_of (actions_of t) = bodies_of t.
Proof.
  unfold bodies_of, actions_of. induction t as [|e t IH]; [reflexivity|].
  destruct e as [line|m u [b|] h to|secs]; cbn; rewrite ?IH; reflexivity.
Qed.

(** Whatever the network answers, [get_vapi_call] sends its one request. *)
Lemma get_vapi_call_actions cfg call_id net :
  actions_of (trace (get_vapi_call cfg call_id net)) = [vapi_request cfg call_id].
Proof.
  unfold get_vapi_call, response_json, vapi_request.
  destruct net as [[[code txt js]| |msg]|]; io_simp; cbn [status_code json];
    try reflexivity.
  destruct (Z.eqb code 200); io_simp; [|reflexivity].
  destruct js as [v|]; io_simp; [|reflexivity].
  destruct v as [| | | | | |body]; try reflexivity.
  io_simp.
  destruct (default (PList []) (body !! "messages")); reflexivity.
Qed.

Lemma get_vapi_call_failed cfg call_id r :
  failed r -> result (get_vapi_call cfg call_id (Some r)) = Done PNone.
Proof.
  intros Hfail. unfold get_vapi_call.
  destruct r as [resp| |msg]; io_simp; try reflexivity.
  cbn [failed] in Hfail. apply Z.eqb_neq in Hfail. rewrite Hfail. io_simp. reflexivity.
Qed.

Lemma get_vapi_call_fetched cfg call_id r d :
  fetched r d -> result (get_vapi_call cfg call_id (Some r)) = Done (PDict d).
Proof.
  intros (resp & -> & Hcode & Hjson & Hsized).
  unfold get_vapi_call, response_json. io_simp. rewrite Hcode, Hjson.
  cbn [Z.eqb Pos.eqb]. io_simp. fold (messages_of d).
  destruct (messages_of d); try discriminate Hsized; reflexivity.
Qed.

Lemma vapi_main_configured cfg now net :
  vapi_configured cfg ->
  main cfg now net =
    (call_data ← get_vapi_call cfg (CALL_ID cfg) (net !! 0%nat);
     (if truthy call_data then ret tt else sys_exit 1);;
     vapi_messages ← py_get call_data "messages" (PList []);
     transcript ← (if truthy vapi_messages
                   then transform_vapi_transcript vapi_messages
                   else print [Lit "Warning: No messages found in Vapi call"];; ret []);
     result ← upload_to_coval cfg now call_data transcript (net !! 1%nat);
     if truthy result then ret tt else print [Lit "Upload failed"];; sys_exit 1).
Proof.
  intros (H1 & H2 & H3). unfold main, exit_if.
  apply String.eqb_neq in H1, H2, H3. rewrite H1, H2, H3.
  rewrite !bind_ret. reflexivity.
Qed.

(** X7. When the call cannot be fetched (the status is not 200, the
    request times out or fails on the network) or the answer is an empty
    JSON object, [main] exits with status 1 and the request to Vapi is
    the only thing it has done: nothing is uploaded. *)
Theorem fetch_failure_uploads_nothing cfg now r net :
  vapi_configured cfg ->
  failed r \/ fetched r ∅ ->
  let out := main cfg now (r :: net) in
  exit_status (result out) = Some 1 /\
  actions_of (trace out) = [vapi_request cfg (CALL_ID cfg)].
Proof.
  intros Hcfg Hr. cbv zeta. rewrite (vapi_main_configured _ _ _ Hcfg).
  cbn [lookup list_lookup].
  rewrite result_bind, trace_bind.
  assert (Hres : exists v, result (get_vapi_call cfg (CALL_ID cfg) (Some r)) = Done v /\
                           truthy v = false).
  { destruct Hr as [Hfail|Hempty].
    - exists PNone. split; [apply get_vapi_call_failed; assumption | reflexivity].
    - exists (PDict ∅). split; [apply get_vapi_call_fetched; assumption | reflexivity]. }
  destruct Hres as (v & -> & Hv). rewrite Hv.
  split; [reflexivity|].
  rewrite actions_of_app', get_vapi_call_actions. reflexivity.
Qed.

Lemma fetch_failure_uploads_nothing_witness :
  let out := main (Config "vapi-key" "coval-key" "call-1" []) "2026-01-01T00:00:00"
               [TimedOut; Answer (Response 200 "{}" (Some (PDict ∅)))] in
  exit_status (result out) = Some 1 /\
  actions_of (trace out) =
    [vapi_request (Config "vapi-key" "coval-key" "call-1" []) "call-1"].
Proof.
  apply (fetch_failure_uploads_nothing (Config "vapi-key" "coval-key" "call-1" [])
           "2026-01-01T00:00:00" TimedOut
           [Answer (Response 200 "{}" (Some (PDict ∅)))]).
  - repeat split; discriminate.
  - left. exact I.
Defined.

(** X8. A 200 answer from Vapi that [get_vapi_call] cannot read is not
    handled as a failed fetch: a JSON body that is not an object raises
    AttributeError, and messages without a length (null, a number, a
    boolean) raise TypeError.  The exception escapes, [main] ends with
    exit status 1, and nothing is uploaded. *)
Theorem unreadable_call_crashes cfg now resp v net :
  vapi_configured cfg ->
  status_code resp = 200 ->
  json resp = Some v ->
  let out := main cfg now (Answer resp :: net) in
  (not_object v = true ->
   result out = Raised AttributeError /\
   actions_of (trace out) = [vapi_request cfg (CALL_ID cfg)]) /\
  (forall d, v = PDict d -> sized (messages_of d) = false ->
   result out = Raised TypeError /\
   actions_of (trace out) = [vapi_request cfg (CALL_ID cfg)]).
Proof.
  intros Hcfg Hcode Hjson. cbv zeta. rewrite (vapi_main_configured _ _ _ Hcfg).
  cbn [lookup list_lookup]. rewrite result_bind, trace_bind.
  pose proof (get_vapi_call_actions cfg (CALL_ID cfg) (Some (Answer resp))) as Hact.
  split.
  - intros Hv.
    assert (Hres : result (get_vapi_call cfg (CALL_ID cfg) (Some (Answer resp)))
                   = Raised AttributeError).
    { unfold get_vapi_call, response_json. io_simp. rewrite Hcode, Hjson.
      cbn [Z.eqb Pos.eqb]. io_simp. destruct v; try discriminate Hv; reflexivity. }
    rewrite Hres. split; [reflexivity | exact Hact].
  - intros d -> Hsized.
    assert (Hres : result (get_vapi_call cfg (CALL_ID cfg) (Some (Answer resp)))
                   = Raised TypeError).
    { unfold get_vapi_call, response_json. io_simp. rewrite Hcode, Hjson.
      cbn [Z.eqb Pos.eqb]. io_simp. fold (messages_of d).
      destruct (messages_of d); try discriminate Hsized; reflexivity. }
    rewrite Hres. split; [reflexivity | exact Hact].
Qed.

Lemma unreadable_call_crashes_witness :
  let cfg := Config "vapi-key" "coval-key" "call-1" [] in
  let out := main cfg "2026-01-01T00:00:00"
               [Answer (Response 200 "" (Some (PDict {[ "messages" := PNone ]})))] in
  result out = Raised TypeError /\
  actions_of (trace out) = [vapi_request cfg "call-1"].
Proof.
  intros cfg.
  destruct (unreadable_call_crashes cfg "2026-01-01T00:00:00"
              (Response 200 "" (Some (PDict {[ "messages" := PNone ]})))
              (PDict {[ "messages" := PNone ]}) []) as [_ H].
  - repeat split; discriminate.
  - reflexivity.
  - reflexivity.
  - apply (H {[ "messages" := PNone ]}); reflexivity.
Defined.

(** Whatever the network answers, the exchange sends its one request. *)
Lemma upload_exchange_actions cfg payload net :
  actions_of (trace (upload_exchange cfg payload net)) = [upload_request cfg payload].
Proof.
  unfold upload_exchange, response_json, upload_request.
  destruct net as [[[code txt js]| |msg]|]; io_simp; cbn [status_code json];
    try reflexivity.
  destruct (Z.eqb code 200); io_simp; [|reflexivity].
  destruct js as [v|]; io_simp; [|reflexivity].
  destruct v as [| | | | | |body]; try reflexivity.
  io_simp.
  destruct (default (PDict ∅) (body !! "conversation")); reflexivity.
Qed.

Lemma upload_exchange_failed cfg payload r :
  failed r -> result (upload_exchange cfg payload (Some r)) = Done PNone.
Proof.
  intros Hfail. unfold upload_exchange.
  destruct r as [resp| |msg]; io_simp; try reflexivity.
  cbn [failed] in Hfail. apply Z.eqb_neq in Hfail. rewrite Hfail. io_simp. reflexivity.
Qed.

Lemma upload_exchange_accepted cfg payload r res :
  accepted r res ->
  result (upload_exchange cfg payload (Some r)) = Done (PDict res) /\
  In (Print [Lit "Conversation ID: ";
             Fmt (match default (PDict ∅) (res !! "conversation") with
                  | PDict c => default PNone (c !! "conversation_id")
                  | _ => PNone
                  end)])
     (trace (upload_exchange cfg payload (Some r))).
Proof.
  intros (resp & -> & Hcode & Hjson & _ & Hconv).
  unfold upload_exchange, response_json. io_simp. rewrite Hcode, Hjson.
  cbn [Z.eqb Pos.eqb]. io_simp.
  destruct (default (PDict ∅) (res !! "conversation")); try discriminate Hconv.
  io_simp. split; [reflexivity|]. cbn [In]. do 2 right. left. reflexivity.
Qed.

Lemma upload_to_coval_actions cfg now d transcript net :
  uploadable d ->
  actions_of (trace (upload_to_coval cfg now (PDict d) transcript net)) =
  [upload_request cfg (upload_payload cfg now d transcript)].
Proof.
  intros Hd. destruct (upload_to_coval_run cfg now d transcript net Hd) as [-> _].
  rewrite actions_of_app', upload_exchange_actions.
  unfold upload_preamble. destruct (truthy (audio_of d)); reflexivity.
Qed.

Lemma upload_metadata_base d k v :
  k <> "customer_number" -> k <> "ended_reason" ->
  ({[ "platform" := PStr "vapi";
      "vapi_call_id" := default PNone (d !! "id");
      "status" := default PNone (d !! "status");
      "type" := default PNone (d !! "type");
      "assistant_id" := default PNone (d !! "assistantId") ]} : dict) !! k = v ->
  upload_metadata d !! k = v.
Proof.
  intros Hc Hr H. unfold upload_metadata.
  destruct (d !! "endedReason"); destruct (d !! "customer") as [[| | | | | |c]|];
    rewrite ?lookup_insert_ne by congruence; exact H.
Qed.

(** X9. On call data it can handle, [upload_to_coval] sends exactly one
    request, whatever the network answers: a POST to the conversations
    endpoint with the API key header and the 30 second timeout.  Its body
    carries the transcript it was given, the call identifier as
    "external_conversation_id", the metadata with platform "vapi" and the
    call's identifier, status, type and assistant, and "metrics" exactly
    when METRIC_IDS is not empty. *)
Theorem upload_sends_the_transcript cfg now d transcript net :
  uploadable d ->
  exists (payload metadata : dict) (headers : gmap string fstring),
    actions_of (trace (upload_to_coval cfg now (PDict d) transcript net)) =
      [Request POST [Lit COVAL_API_URL] (Some (PDict payload)) headers 30] /\
    headers !! "X-API-Key" = Some [Lit (COVAL_API_KEY cfg)] /\
    payload !! "transcript" = Some (PList transcript) /\
    payload !! "external_conversation_id" = Some (default PNone (d !! "id")) /\
    payload !! "metrics" =
      match METRIC_IDS cfg with [] => None | ids => Some (PList (PStr <$> ids)) end /\
    payload !! "metadata" = Some (PDict metadata) /\
    metadata !! "platform" = Some (PStr "vapi") /\
    metadata !! "vapi_call_id" = Some (default PNone (d !! "id")) /\
    metadata !! "status" = Some (default PNone (d !! "status")) /\
    metadata !! "type" = Some (default PNone (d !! "type")) /\
    metadata !! "assistant_id" = Some (default PNone (d !! "assistantId")).
Proof.
  intros Hd.
  exists (upload_payload cfg now d transcript), (upload_metadata d),
    {[ "X-API-Key" := [Lit (COVAL_API_KEY cfg)];
       "Content-Type" := [Lit "application/json"] ]}.
  split; [apply upload_to_coval_actions; assumption|].
  split; [reflexivity|].
  assert (Hpay : forall k v, k <> "metadata" -> k <> "metrics" -> k <> "audio_url" ->
            ({[ "transcript" := PList transcript;
                "external_conversation_id" := default PNone (d !! "id");
                "occurred_at" :=
                  py_or (py_or (default PNone (d !! "startedAt"))
                               (default PNone (d !! "createdAt"))) (PStr now) ]} : dict)
            !! k = v ->
            upload_payload cfg now d transcript !! k = v).
  { intros k v H1 H2 H3 H. unfold upload_payload.
    destruct (METRIC_IDS cfg); destruct (truthy (audio_of d));
      rewrite ?lookup_insert_ne by congruence; exact H. }
  split; [apply Hpay; try discriminate; reflexivity|].
  split; [apply Hpay; try discriminate; reflexivity|].
  split.
  { unfold upload_payload.
    destruct (METRIC_IDS cfg); destruct (truthy (audio_of d)); by simplify_map_eq. }
  split; [unfold upload_payload; apply lookup_insert_eq|].
  repeat split; apply upload_metadata_base; try discriminate; reflexivity.
Qed.

Lemma upload_sends_the_transcript_witness :
  exists payload : dict,
    bodies_of (trace (upload_to_coval (Config "vapi-key" "coval-key" "call-1" ["m1"])
                        "2026-01-01T00:00:00" (PDict {[ "id" := PStr "call-1" ]})
                        example_transcript None)) = [PDict payload] /\
    payload !! "transcript" = Some (PList example_transcript) /\
    payload !! "metrics" = Some (PList [PStr "m1"]).
Proof.
  destruct (upload_sends_the_transcript (Config "vapi-key" "coval-key" "call-1" ["m1"])
              "2026-01-01T00:00:00" {[ "id" := PStr "call-1" ]} example_transcript None)
    as (payload & metadata & headers & Hact & _ & Ht & _ & Hm & _).
  - split; [vm_compute; discriminate|].
    intros c Hc. vm_compute in Hc. discriminate Hc.
  - exists payload. split; [|split; [exact Ht | exact Hm]].
    rewrite <- bodies_of_actions, Hact. reflexivity.
Defined.

(** X10. The recording [upload_to_coval] refers to is the stereo one when
    the call has it, else the plain one; when the call has neither, the
    payload has no "audio_url" at all. *)
Theorem upload_prefers_stereo_recording cfg now d transcript net :
  uploadable d ->
  exists payload : dict,
    bodies_of (trace (upload_to_coval cfg now (PDict d) transcript net)) = [PDict payload] /\
    let stereo := default PNone (d !! "stereoRecordingUrl") in
    let recording := default PNone (d !! "recordingUrl") in
    (truthy stereo = true -> payload !! "audio_url" = Some stereo) /\
    (truthy stereo = false -> truthy recording = true ->
     payload !! "audio_url" = Some recording) /\
    (truthy stereo = false -> truthy recording = false ->
     payload !! "audio_url" = None).
Proof.
  intros Hd. exists (upload_payload cfg now d transcript). split.
  { rewrite <- bodies_of_actions, (upload_to_coval_actions _ _ _ _ _ Hd). reflexivity. }
  cbv zeta. unfold upload_payload, audio_of, py_or.
  repeat split.
  - intros Hs. rewrite Hs, Hs. destruct (METRIC_IDS cfg); by simplify_map_eq.
  - intros Hs Hr. rewrite Hs, Hr. destruct (METRIC_IDS cfg); by simplify_map_eq.
  - intros Hs Hr. rewrite Hs, Hr. destruct (METRIC_IDS cfg); by simplify_map_eq.
Qed.

Lemma upload_prefers_stereo_recording_witness :
  exists payload : dict,
    bodies_of (trace (upload_to_coval (Config "vapi-key" "coval-key" "call-1" [])
                        "2026-01-01T00:00:00"
                        (PDict {[ "stereoRecordingUrl" := PStr "https://s";
                                  "recordingUrl" := PStr "https://m" ]})
                        [] None)) = [PDict payload] /\
    payload !! "audio_url" = Some (PStr "https://s").
Proof.
  destruct (upload_prefers_stereo_recording (Config "vapi-key" "coval-key" "call-1" [])
              "2026-01-01T00:00:00"
              {[ "stereoRecordingUrl" := PStr "https://s"; "recordingUrl" := PStr "https://m" ]}
              [] None) as (payload & Hb & Hs & _).
  - split; [intros _; vm_compute; reflexivity|].
    intros c Hc. vm_compute in Hc. discriminate Hc.
  - exists payload. split; [exact Hb|]. apply Hs. reflexivity.
Defined.

(** X11. The "occurred_at" of the payload is the call's "startedAt" when
    it has one, else its "createdAt", else the current time. *)
Theorem upload_dates_the_call cfg now d transcript net :
  uploadable d ->
  exists payload : dict,
    bodies_of (trace (upload_to_coval cfg now (PDict d) transcript net)) = [PDict payload] /\
    let started := default PNone (d !! "startedAt") in
    let created := default PNone (d !! "createdAt") in
    (truthy started = true -> payload !! "occurred_at" = Some started) /\
    (truthy started = false -> truthy created = true ->
     payload !! "occurred_at" = Some created) /\
    (truthy started = false -> truthy created = false ->
     payload !! "occurred_at" = Some (PStr now)).
Proof.
  intros Hd. exists (upload_payload cfg now d transcript). split.
  { rewrite <- bodies_of_actions, (upload_to_coval_actions _ _ _ _ _ Hd). reflexivity. }
  cbv zeta.
  assert (Hocc : upload_payload cfg now d transcript !! "occurred_at" =
                 Some (py_or (py_or (default PNone (d !! "startedAt"))
                                    (default PNone (d !! "createdAt"))) (PStr now))).
  { unfold upload_payload.
    destruct (METRIC_IDS cfg); destruct (truthy (audio_of d)); by simplify_map_eq. }
  rewrite Hocc. unfold py_or. repeat split.
  - intros Hs. rewrite Hs, Hs. reflexivity.
  - intros Hs Hc. rewrite Hs, Hc. reflexivity.
  - intros Hs Hc. rewrite Hs, Hc. reflexivity.
Qed.

Lemma upload_dates_the_call_witness :
  exists payload : dict,
    bodies_of (trace (upload_to_coval (Config "vapi-key" "coval-key" "call-1" [])
                        "2026-01-01T00:00:00"
                        (PDict {[ "createdAt" := PStr "2025-12-31T23:00:00" ]})
                        [] None)) = [PDict payload] /\
    payload !! "occurred_at" = Some (PStr "2025-12-31T23:00:00").
Proof.
  destruct (upload_dates_the_call (Config "vapi-key" "coval-key" "call-1" [])
              "2026-01-01T00:00:00" {[ "createdAt" := PStr "2025-12-31T23:00:00" ]}
              [] None) as (payload & Hb & _ & Hc & _).
  - split; [vm_compute; discriminate|].
    intros c Hc. vm_compute in Hc. discriminate Hc.
  - exists payload. split; [exact Hb|]. apply Hc; reflexivity.
Defined.

(** X12. The metadata of the payload names the customer's number exactly
    when the call has a customer, and its "ended_reason" is the call's
    "endedReason", present or absent alike. *)
Theorem upload_metadata_follows_the_call cfg now d transcript net :
  uploadable d ->
  exists payload metadata : dict,
    bodies_of (trace (upload_to_coval cfg now (PDict d) transcript net)) = [PDict payload] /\
    payload !! "metadata" = Some (PDict metadata) /\
    metadata !! "ended_reason" = d !! "endedReason" /\
    (d !! "customer" = None -> metadata !! "customer_number" = None) /\
    (forall c, d !! "customer" = Some (PDict c) ->
       metadata !! "customer_number" = Some (default PNone (c !! "number"))).
Proof.
  intros Hd. exists (upload_payload cfg now d transcript), (upload_metadata d). split.
  { rewrite <- bodies_of_actions, (upload_to_coval_actions _ _ _ _ _ Hd). reflexivity. }
  split; [unfold upload_payload; apply lookup_insert_eq|].
  unfold upload_metadata. repeat split.
  - destruct (d !! "endedReason"); destruct (d !! "customer") as [[| | | | | |c]|];
      by simplify_map_eq.
  - intros ->. destruct (d !! "endedReason"); by simplify_map_eq.
  - intros c ->. destruct (d !! "endedReason"); by simplify_map_eq.
Qed.

Lemma upload_metadata_follows_the_call_witness :
  exists payload metadata : dict,
    bodies_of (trace (upload_to_coval (Config "vapi-key" "coval-key" "call-1" [])
                        "2026-01-01T00:00:00"
                        (PDict {[ "customer" := PDict {[ "number" := PStr "+15550100" ]} ]})
                        [] None)) = [PDict payload] /\
    payload !! "metadata" = Some (PDict metadata) /\
    metadata !! "customer_number" = Some (PStr "+15550100") /\
    metadata !! "ended_reason" = None.
Proof.
  destruct (upload_metadata_follows_the_call (Config "vapi-key" "coval-key" "call-1" [])
              "2026-01-01T00:00:00"
              {[ "customer" := PDict {[ "number" := PStr "+15550100" ]} ]}
              [] None) as (payload & metadata & Hb & Hm & Hr & _ & Hc).
  - split; [vm_compute; discriminate|].
    intros c Hc. vm_compute in Hc. injection Hc as <-. reflexivity.
  - exists payload, metadata. split; [exact Hb|]. split; [exact Hm|]. split.
    + exact (Hc {[ "number" := PStr "+15550100" ]} eq_refl).
    + exact Hr.
Defined.

(** X13. Call data [upload_to_coval] cannot handle makes it raise before
    anything is sent: a recording URL that is set but is neither a string
    nor a list, or a customer that is not an object (an AttributeError). *)
Theorem malformed_call_is_never_uploaded cfg now d transcript net :
  let out := upload_to_coval cfg now (PDict d) transcript net in
  (truthy (audio_of d) = true -> sliceable (audio_of d) = false ->
   (exists e, result out = Raised e) /\ actions_of (trace out) = []) /\
  (forall c,
     (truthy (audio_of d) = true -> sliceable (audio_of d) = true) ->
     d !! "customer" = Some c -> not_object c = true ->
     result out = Raised AttributeError /\ actions_of (trace out) = []).
Proof.
  cbv zeta. split.
  - intros Ha Hs. unfold upload_to_coval. io_simp. fold (audio_of d). rewrite Ha.
    destruct (audio_of d); try discriminate Hs; (split; [eexists|]; reflexivity).
  - intros c Haudio Hc Hobj. unfold upload_to_coval. io_simp. fold (audio_of d).
    destruct (truthy (audio_of d)) eqn:Ha.
    + rewrite (py_slice_sliced _ 60 (Haudio eq_refl)), bind_ret, !bind_assoc. io_simp.
      rewrite !py_contains_dict. unfold py_getitem. rewrite Hc. io_simp.
      destruct c; try discriminate Hobj; split; reflexivity.
    + io_simp. rewrite !py_contains_dict. unfold py_getitem. rewrite Hc. io_simp.
      destruct c; try discriminate Hobj; split; reflexivity.
Qed.

Lemma malformed_call_is_never_uploaded_witness :
  let out := upload_to_coval (Config "vapi-key" "coval-key" "call-1" [])
               "2026-01-01T00:00:00" (PDict {[ "customer" := PNone ]}) []
               (Some (Answer (Response 200 "" None))) in
  result out = Raised AttributeError /\ actions_of (trace out) = [].
Proof.
  destruct (malformed_call_is_never_uploaded (Config "vapi-key" "coval-key" "call-1" [])
              "2026-01-01T00:00:00" {[ "customer" := PNone ]} []
              (Some (Answer (Response 200 "" None)))) as [_ H].
  apply (H PNone).
  - intros Ha. vm_compute in Ha. discriminate Ha.
  - reflexivity.
  - reflexivity.
Defined.

Lemma actions_bind {A B} (m : io A) (k : A -> io B) :
  actions_of (trace m) = [] ->
  (forall a, actions_of (trace (k a)) = []) ->
  actions_of (trace (m ≫= k)) = [].
Proof.
  intros Hm Hk. rewrite trace_bind. destruct (result m); try assumption.
  rewrite actions_of_app', Hm, Hk. reflexivity.
Qed.

Lemma to_float_trace v : trace (to_float v) = [].
Proof. destruct v; try reflexivity. cbn. destruct (float_is_inf _); reflexivity. Qed.

Lemma py_truediv_trace v f : trace (py_truediv v f) = [].
Proof.
  unfold py_truediv. rewrite trace_bind, to_float_trace.
  destruct (result (to_float v)); try reflexivity.
  destruct (float_is_zero f); reflexivity.
Qed.

Lemma py_add_trace v f : trace (py_add v f) = [].
Proof.
  unfold py_add. rewrite trace_bind, to_float_trace.
  destruct (result (to_float v)); reflexivity.
Qed.

(** The mapper only prints: it sends nothing and does not sleep. *)
Lemma transform_message_quiet idx msg :
  actions_of (trace (transform_message idx msg)) = [].
Proof.
  destruct msg as [| | | | | |d]; try reflexivity.
  unfold transform_message. rewrite !py_get_dict, !bind_ret.
  destruct (coval_role_of _); [|reflexivity].
  rewrite ?py_get_dict, ?bind_ret.
  apply actions_bind; [rewrite py_truediv_trace; reflexivity | intros x].
  apply actions_bind; [rewrite py_add_trace; reflexivity | intros y].
  rewrite py_contains_dict, bind_ret. unfold py_getitem.
  destruct (d !! "time"); rewrite ?bind_ret;
    (apply actions_bind; [destruct (default _ _); reflexivity | intros w; reflexivity]).
Qed.

Lemma transform_loop_quiet msgs : forall idx acc,
  actions_of (trace (transform_loop idx msgs acc)) = [].
Proof.
  induction msgs as [|m msgs IH]; intros idx acc; [reflexivity|].
  cbn [transform_loop]. apply actions_bind; [apply transform_message_quiet|].
  intros [e|]; apply IH.
Qed.

Lemma transform_vapi_transcript_quiet v :
  actions_of (trace (transform_vapi_transcript v)) = [].
Proof.
  unfold transform_vapi_transcript. rewrite trace_print.
  change (actions_of (Print ?l :: ?t)) with (actions_of t).
  apply actions_bind; [destruct v; reflexivity | intros msgs].
  apply actions_bind; [apply transform_loop_quiet | intros ts; reflexivity].
Qed.

Lemma nonempty_dict_truthy (d : dict) k v : d !! k = Some v -> truthy (PDict d) = true.
Proof.
  intros H. cbn [truthy]. destruct (map_to_list d) as [|kv l] eqn:Hl; [|reflexivity].
  apply map_to_list_empty_iff in Hl. subst d. rewrite lookup_empty in H. discriminate H.
Qed.

(** [main] from the fetch on, for a call it can transcribe and upload. *)
Lemma vapi_main_after_fetch cfg now r d transcript net :
  vapi_configured cfg ->
  fetched r d ->
  truthy (PDict d) = true ->
  uploadable d ->
  transcribes d transcript ->
  let exchange := upload_exchange cfg (upload_payload cfg now d transcript) (net !! 0%nat) in
  actions_of (trace (main cfg now (r :: net))) =
    [vapi_request cfg (CALL_ID cfg);
     upload_request cfg (upload_payload cfg now d transcript)] /\
  result (main cfg now (r :: net)) =
    match result exchange with
    | Done res => if truthy res then Done tt else Raised (SystemExit 1)
    | Raised e => Raised e
    | Waiting => Waiting
    end /\
  (forall res, result exchange = Done res -> truthy res = false ->
     last (trace (main cfg now (r :: net))) = Some (Print [Lit "Upload failed"])).
Proof.
  intros Hcfg Hr Hd Hup Hts. cbv zeta. rewrite (vapi_main_configured _ _ _ Hcfg).
  change ((r :: net) !! 0%nat) with (Some r).
  change ((r :: net) !! 1%nat) with (net !! 0%nat).
  rewrite trace_bind, result_bind, (get_vapi_call_fetched _ _ _ _ Hr), Hd.
  rewrite bind_ret, py_get_dict, bind_ret. fold (messages_of d).
  rewrite actions_of_app', get_vapi_call_actions.
  set (rest := fun ts : list pyval =>
         upload_to_coval cfg now (PDict d) ts (net !! 0%nat) ≫= _).
  assert (Hrest :
    actions_of (trace (rest transcript)) =
      [upload_request cfg (upload_payload cfg now d transcript)] /\
    result (rest transcript) =
      match result (upload_exchange cfg (upload_payload cfg now d transcript) (net !! 0%nat))
      with
      | Done res => if truthy res then Done tt else Raised (SystemExit 1)
      | Raised e => Raised e
      | Waiting => Waiting
      end /\
    (forall res,
       result (upload_exchange cfg (upload_payload cfg now d transcript) (net !! 0%nat))
       = Done res ->
       truthy res = false ->
       exists t, trace (rest transcript) = (t ++ [Print [Lit "Upload failed"]])%list)).
  { subst rest. cbv beta. rewrite trace_bind, result_bind.
    destruct (upload_to_coval_run cfg now d transcript (net !! 0%nat) Hup) as [Ht Hres].
    rewrite Hres.
    pose proof (upload_to_coval_actions cfg now d transcript (net !! 0%nat) Hup) as Hact.
    destruct (result (upload_exchange _ _ _)) as [res| |]; try (repeat split; [exact Hact | discriminate]).
    destruct (truthy res) eqn:Hres'.
    - rewrite trace_ret, app_nil_r. repeat split; [exact Hact | congruence].
    - rewrite actions_of_app', Hact. repeat split. intros res' _ _. eexists. reflexivity. }
  destruct Hrest as (Hact & Hres & Hlast).
  destruct Hts as [[Hm ->]|[Hm Hts]]; rewrite Hm.
  - rewrite bind_assoc, trace_print, result_print, bind_ret.
    change (actions_of (Print ?l :: ?t)) with (actions_of t).
    rewrite Hact, Hres. repeat split.
    intros res H1 H2. destruct (Hlast res H1 H2) as [t ->].
    rewrite app_comm_cons, app_assoc. apply last_snoc.
  - rewrite trace_bind, result_bind, Hts.
    rewrite actions_of_app', transform_vapi_transcript_quiet, Hact, Hres. repeat split.
    intros res H1 H2. destruct (Hlast res H1 H2) as [t ->].
    rewrite !app_assoc. apply last_snoc.
Qed.

Lemma upload_payload_transcript cfg now d transcript :
  upload_payload cfg now d transcript !! "transcript" = Some (PList transcript).
Proof.
  unfold upload_payload.
  destruct (METRIC_IDS cfg); destruct (truthy (audio_of d)); by simplify_map_eq.
Qed.

(** X14. End to end: when the call is fetched with a non-empty list of
    message records, [main] makes exactly two requests, the fetch and the
    upload, and the transcript in the uploaded payload is what the mapper
    returns for the messages of the call: the translations of the records
    with a mapped role, in order. *)
Theorem main_uploads_the_mapped_transcript cfg now r d msgs net :
  vapi_configured cfg ->
  fetched r d ->
  d !! "messages" = Some (PList msgs) ->
  msgs <> [] ->
  Forall message_record msgs ->
  uploadable d ->
  exists (ts : list pyval) (payload : dict),
    result (transform_vapi_transcript (PList msgs)) = Done ts /\
    Forall2 translates_to (List.filter recognised msgs) ts /\
    actions_of (trace (main cfg now (r :: net))) =
      [vapi_request cfg (CALL_ID cfg); upload_request cfg payload] /\
    payload !! "transcript" = Some (PList ts).
Proof.
  intros Hcfg Hr Hmsgs Hne Hrec Hup.
  destruct (transform_loop_total msgs Hrec 0 []) as [ts Hts].
  destruct (transform_loop_inv _ _ _ _ Hts) as (ts' & Heq & Hall). cbn [app] in Heq. subst ts'.
  rewrite <- transform_vapi_transcript_result in Hts.
  exists ts, (upload_payload cfg now d ts).
  split; [assumption|]. split; [assumption|].
  assert (Hm : messages_of d = PList msgs) by (unfold messages_of; rewrite Hmsgs; reflexivity).
  destruct (vapi_main_after_fetch cfg now r d ts net Hcfg Hr) as (Hact & _).
  - eapply nonempty_dict_truthy. eassumption.
  - assumption.
  - right. rewrite Hm. split; [destruct msgs; [contradiction | reflexivity] | assumption].
  - split; [exact Hact | apply upload_payload_transcript].
Qed.

Lemma main_uploads_the_mapped_transcript_witness :
  let cfg := Config "vapi-key" "coval-key" "call-1" [] in
  exists payload : dict,
    actions_of (trace (main cfg "2026-01-01T00:00:00"
                         [Answer (Response 200 ""
                            (Some (PDict {[ "messages" := PList example_messages ]})))])) =
      [vapi_request cfg "call-1"; upload_request cfg payload] /\
    payload !! "transcript" = Some (PList example_transcript).
Proof.
  intros cfg.
  destruct (main_uploads_the_mapped_transcript cfg "2026-01-01T00:00:00"
              (Answer (Response 200 ""
                 (Some (PDict {[ "messages" := PList example_messages ]}))))
              {[ "messages" := PList example_messages ]} example_messages [])
    as (ts & payload & Hts & _ & Hact & Hp).
  - repeat split; discriminate.
  - eexists. repeat split; reflexivity.
  - reflexivity.
  - discriminate.
  - repeat constructor; try (eexists; reflexivity); vm_compute; congruence.
  - split; [vm_compute; discriminate|].
    intros c Hc. vm_compute in Hc. discriminate Hc.
  - exists payload. split; [exact Hact|].
    assert (Hex : result (transform_vapi_transcript (PList example_messages))
                  = Done example_transcript) by (vm_compute; reflexivity).
    rewrite Hex in Hts. injection Hts as <-. exact Hp.
Defined.

Lemma upload_exchange_empty cfg payload resp :
  status_code resp = 200 -> json resp = Some (PDict ∅) ->
  result (upload_exchange cfg payload (Some (Answer resp))) = Done (PDict ∅).
Proof.
  intros Hcode Hjson. unfold upload_exchange, response_json. io_simp.
  rewrite Hcode, Hjson. reflexivity.
Qed.

(** X15. Once the call is fetched, the exit status of [main] follows the
    upload: a 200 answer with a non-empty JSON object ends it with status
    0; a failed upload (status other than 200, timeout, network error)
    or a 200 answer with an empty JSON object makes it print "Upload
    failed" last and exit with status 1. *)
Theorem main_exit_status_follows_the_upload cfg now r d transcript r2 net :
  vapi_configured cfg ->
  fetched r d ->
  truthy (PDict d) = true ->
  uploadable d ->
  transcribes d transcript ->
  let out := main cfg now (r :: r2 :: net) in
  ((exists res, accepted r2 res) -> exit_status (result out) = Some 0) /\
  (failed r2 \/
   (exists resp, r2 = Answer resp /\ status_code resp = 200 /\ json resp = Some (PDict ∅)) ->
   exit_status (result out) = Some 1 /\
   last (trace out) = Some (Print [Lit "Upload failed"])).
Proof.
  intros Hcfg Hr Hd Hup Hts. cbv zeta.
  destruct (vapi_main_after_fetch cfg now r d transcript (r2 :: net) Hcfg Hr Hd Hup Hts)
    as (_ & Hres & Hlast).
  change ((r2 :: net) !! 0%nat) with (Some r2) in Hres, Hlast.
  split.
  - intros [res Hacc].
    destruct (upload_exchange_accepted cfg (upload_payload cfg now d transcript) r2 res Hacc)
      as [Hre _].
    rewrite Hres, Hre.
    destruct Hacc as (resp & _ & _ & _ & -> & _). reflexivity.
  - intros Hfail.
    assert (Hre : exists res,
              result (upload_exchange cfg (upload_payload cfg now d transcript) (Some r2))
              = Done res /\ truthy res = false).
    { destruct Hfail as [Hfail|(resp & -> & Hcode & Hjson)].
      - exists PNone. split; [apply upload_exchange_failed; assumption | reflexivity].
      - exists (PDict ∅). split; [apply upload_exchange_empty; assumption | reflexivity]. }
    destruct Hre as (res & Hre & Hfalsy).
    split; [rewrite Hres, Hre, Hfalsy; reflexivity|].
    exact (Hlast res Hre Hfalsy).
Qed.

Lemma main_exit_status_follows_the_upload_witness :
  let out := main (Config "vapi-key" "coval-key" "call-1" []) "2026-01-01T00:00:00"
               [Answer (Response 200 "" (Some (PDict {[ "id" := PStr "call-1" ]})));
                Answer (Response 500 "Internal Server Error" None)] in
  exit_status (result out) = Some 1 /\
  last (trace out) = Some (Print [Lit "Upload failed"]).
Proof.
  destruct (main_exit_status_follows_the_upload
              (Config "vapi-key" "coval-key" "call-1" []) "2026-01-01T00:00:00"
              (Answer (Response 200 "" (Some (PDict {[ "id" := PStr "call-1" ]}))))
              {[ "id" := PStr "call-1" ]} []
              (Answer (Response 500 "Internal Server Error" None)) []) as [_ H].
  - repeat split; discriminate.
  - eexists. repeat split; reflexivity.
  - reflexivity.
  - split; [vm_compute; discriminate|].
    intros c Hc. vm_compute in Hc. discriminate Hc.
  - left. split; reflexivity.
  - apply H. left. cbn. discriminate.
Defined.

Ltac no_such_line H :=
  cbn in H; repeat (destruct H as [H|H]; [discriminate H|]); exact H.

(** X16. When the fetched call has no messages (the key is absent, or the
    list is empty), [main] prints a warning instead of running the mapper
    and uploads an empty transcript. *)
Theorem call_without_messages_uploads_empty_transcript cfg now r d net :
  vapi_configured cfg ->
  fetched r d ->
  truthy (PDict d) = true ->
  uploadable d ->
  truthy (messages_of d) = false ->
  let out := main cfg now (r :: net) in
  exists payload : dict,
    actions_of (trace out) = [vapi_request cfg (CALL_ID cfg); upload_request cfg payload] /\
    payload !! "transcript" = Some (PList []) /\
    In (Print [Lit "Warning: No messages found in Vapi call"]) (trace out) /\
    ~ In (Print [Lit nl; Lit "Transforming Vapi transcript..."]) (trace out).
Proof.
  intros Hcfg Hr Hd Hup Hm. cbv zeta. exists (upload_payload cfg now d []).
  destruct (vapi_main_after_fetch cfg now r d [] net Hcfg Hr Hd Hup) as (Hact & _).
  { left. split; [assumption | reflexivity]. }
  split; [exact Hact|]. split; [apply upload_payload_transcript|].
  rewrite (vapi_main_configured _ _ _ Hcfg).
  change ((r :: net) !! 0%nat) with (Some r).
  change ((r :: net) !! 1%nat) with (net !! 0%nat).
  rewrite trace_bind, (get_vapi_call_fetched _ _ _ _ Hr), Hd.
  rewrite bind_ret, py_get_dict, bind_ret. fold (messages_of d). rewrite Hm.
  rewrite bind_assoc, trace_print, bind_ret, trace_bind.
  destruct (upload_to_coval_run cfg now d [] (net !! 0%nat) Hup) as [Ht _]. rewrite Ht.
  split.
  - apply in_or_app. right. left. reflexivity.
  - intros Hin.
    assert (Hfetch : ~ In (Print [Lit nl; Lit "Transforming Vapi transcript..."])
                       (trace (get_vapi_call cfg (CALL_ID cfg) (Some r)))).
    { destruct Hr as (resp & -> & Hcode & Hjson & Hsized).
      unfold get_vapi_call, response_json. io_simp. rewrite Hcode, Hjson.
      cbn [Z.eqb Pos.eqb]. io_simp. fold (messages_of d).
      destruct (messages_of d); try discriminate Hsized; intros H; no_such_line H. }
    assert (Hex : forall o, ~ In (Print [Lit nl; Lit "Transforming Vapi transcript..."])
                    (trace (upload_exchange cfg (upload_payload cfg now d []) o))).
    { intros o. unfold upload_exchange, response_json.
      destruct o as [[[code txt js]| |msg]|]; io_simp; cbn [status_code json];
        try (intros H; no_such_line H).
      destruct (Z.eqb code 200); io_simp; [|intros H; no_such_line H].
      destruct js as [v|]; io_simp; [|intros H; no_such_line H].
      destruct v as [| | | | | |body]; try (intros H; no_such_line H).
      io_simp. destruct (default (PDict ∅) (body !! "conversation"));
        intros H; no_such_line H. }
    assert (Hpre : ~ In (Print [Lit nl; Lit "Transforming Vapi transcript..."])
                     (upload_preamble d [])).
    { unfold upload_preamble. destruct (truthy (audio_of d)); intros H; no_such_line H. }
    apply in_app_or in Hin as [Hin|Hin]; [exact (Hfetch Hin)|].
    destruct Hin as [Hin|Hin]; [discriminate Hin|].
    destruct (result (upload_to_coval cfg now (PDict d) [] (net !! 0%nat))) as [res| |].
    + apply in_app_or in Hin as [Hin|Hin].
      * apply in_app_or in Hin as [Hin|Hin]; [exact (Hpre Hin) | exact (Hex _ Hin)].
      * destruct (truthy res); no_such_line Hin.
    + apply in_app_or in Hin as [Hin|Hin]; [exact (Hpre Hin) | exact (Hex _ Hin)].
    + apply in_app_or in Hin as [Hin|Hin]; [exact (Hpre Hin) | exact (Hex _ Hin)].
Qed.

Lemma call_without_messages_uploads_empty_transcript_witness :
  let cfg := Config "vapi-key" "coval-key" "call-1" [] in
  let out := main cfg "2026-01-01T00:00:00"
               [Answer (Response 200 "" (Some (PDict {[ "id" := PStr "call-1" ]})))] in
  exists payload : dict,
    actions_of (trace out) = [vapi_request cfg "call-1"; upload_request cfg payload] /\
    payload !! "transcript" = Some (PList []) /\
    In (Print [Lit "Warning: No messages found in Vapi call"]) (trace out) /\
    ~ In (Print [Lit nl; Lit "Transforming Vapi transcript..."]) (trace out).
Proof.
  intros cfg.
  apply (call_without_messages_uploads_empty_transcript cfg "2026-01-01T00:00:00"
           (Answer (Response 200 "" (Some (PDict {[ "id" := PStr "call-1" ]}))))
           {[ "id" := PStr "call-1" ]} []).
  - repeat split; discriminate.
  - eexists. repeat split; reflexivity.
  - reflexivity.
  - split; [vm_compute; discriminate|].
    intros c Hc. vm_compute in Hc. discriminate Hc.
  - reflexivity.
Defined.

Lemma entry_for_copies d r s dur :
  entry_for d r s dur !! "timestamp" = d !! "time" /\
  dom (entry_for d r s dur) =
    {[ "role"; "content"; "start_time"; "end_time" ]} ∪
    (match d !! "time" with Some _ => {[ "timestamp" ]} | None => ∅ end : gset string).
Proof.
  unfold entry_for. destruct (d !! "time").
  - split; [by simplify_map_eq|]. rewrite !dom_insert_L, dom_singleton_L. set_solver.
  - split; [by simplify_map_eq|]. rewrite !dom_insert_L, dom_singleton_L. set_solver.
Qed.

(** X17. Besides its role and timing, every entry the mapper produces
    carries the text of its message as "content" (the empty string when
    the message has none) and the message's "time" as "timestamp" exactly
    when the message has one; an entry has no other key. *)
Theorem entries_copy_text_and_time msgs ts :
  result (transform_vapi_transcript (PList msgs)) = Done ts ->
  Forall2 copied_from (List.filter recognised msgs) ts.
Proof.
  intros H. rewrite transform_vapi_transcript_result in H.
  apply transform_loop_inv in H as (ts' & -> & Hts). cbn [app].
  eapply Forall2_impl; [exact Hts|].
  intros m e Hme.
  destruct (transform_message_inv 0 _ _ (Hme 0))
    as (d & r & s & dur & -> & Hr & Hs & Hd & Hm & ->).
  exists d, (entry_for d r s dur).
  destruct (entry_for_lookups d r s dur) as (_ & Hc & _).
  destruct (entry_for_copies d r s dur) as [Ht Hdom].
  repeat split; assumption.
Qed.

Lemma entries_copy_text_and_time_witness :
  Forall2 copied_from (List.filter recognised example_messages) example_transcript.
Proof.
  apply (entries_copy_text_and_time example_messages example_transcript).
  vm_compute. reflexivity.
Defined.

Lemma no_wait_bind {A B} (m : io A) (k : A -> io B) :
  result m <> Waiting ->
  (forall a, result (k a) <> Waiting) ->
  result (m ≫= k) <> Waiting.
Proof.
  intros Hm Hk. rewrite result_bind.
  destruct (result m) eqn:E; [apply Hk | discriminate | congruence].
Qed.

Lemma to_float_no_wait v : result (to_float v) <> Waiting.
Proof. destruct v; try discriminate. cbn. destruct (float_is_inf _); discriminate. Qed.

(** The loop body never blocks: it returns or it raises. *)
Lemma transform_message_no_wait idx msg : result (transform_message idx msg) <> Waiting.
Proof.
  destruct msg as [| | | | | |d]; try discriminate.
  unfold transform_message. rewrite !py_get_dict, !bind_ret.
  destruct (coval_role_of _); [|discriminate].
  rewrite ?py_get_dict, ?bind_ret.
  apply no_wait_bind.
  { unfold py_truediv. apply no_wait_bind; [apply to_float_no_wait|].
    intros x. destruct (float_is_zero _); discriminate. }
  intros x. apply no_wait_bind.
  { unfold py_add. apply no_wait_bind; [apply to_float_no_wait | discriminate]. }
  intros y. rewrite py_contains_dict, bind_ret. unfold py_getitem.
  destruct (d !! "time"); rewrite ?bind_ret;
    (apply no_wait_bind; [destruct (default _ _); discriminate | intros w; discriminate]).
Qed.

(** A message with a mapped role whose fields the loop body cannot use
    makes it raise. *)
Lemma transform_message_raises idx d r :
  coval_role_of (role_of d) = Some r ->
  number_value (duration_of d) = None \/
  number_value (offset_of d) = None \/
  sliceable (message_of d) = false ->
  exists e, result (transform_message idx (PDict d)) = Raised e.
Proof.
  intros Hr Hbad.
  destruct (result (transform_message idx (PDict d))) as [[e|]|e|] eqn:Hres.
  - exfalso. apply transform_message_inv in Hres
      as (d' & r' & s & dur & [= <-] & _ & Hs & Hd & Hm & _).
    destruct Hbad as [H|[H|H]]; congruence.
  - exfalso. apply transform_message_none in Hres.
    unfold recognised in Hres. apply bool_decide_eq_false in Hres.
    apply Hres. rewrite Hr. eauto.
  - eauto.
  - exfalso. exact (transform_message_no_wait _ _ Hres).
Qed.

Lemma transform_loop_raises pre m post e :
  Forall message_record pre ->
  (forall idx, result (transform_message idx m) = Raised e) ->
  forall idx acc, result (transform_loop idx (pre ++ m :: post) acc) = Raised e.
Proof.
  intros Hpre Hm. induction Hpre as [|x pre Hx _ IH]; intros idx acc.
  - cbn [app transform_loop]. rewrite result_bind, Hm. reflexivity.
  - cbn [app transform_loop]. rewrite result_bind.
    pose proof (transform_message_record idx x Hx) as Hb.
    destruct (recognised x).
    + destruct Hb as [en ->]. apply IH.
    + rewrite Hb. apply IH.
Qed.

(** X18. The mapper has no partial result: after any number of good
    records, an item that is not an object makes the whole
    transformation raise AttributeError, and a record with a mapped role
    whose duration or offset is not a number, or whose text is neither a
    string nor a list, makes it raise too, whatever follows. *)
Theorem one_bad_record_aborts_the_mapper pre m post :
  Forall message_record pre ->
  let out := transform_vapi_transcript (PList (pre ++ m :: post)) in
  (not_object m = true -> result out = Raised AttributeError) /\
  (forall d r,
     m = PDict d ->
     coval_role_of (role_of d) = Some r ->
     number_value (duration_of d) = None \/
     number_value (offset_of d) = None \/
     sliceable (message_of d) = false ->
     exists e, result out = Raised e).
Proof.
  intros Hpre. cbv zeta. rewrite transform_vapi_transcript_result. split.
  - intros Hm. apply transform_loop_raises; [assumption|].
    intros idx. destruct m; try discriminate Hm; reflexivity.
  - intros d r -> Hr Hbad.
    destruct (transform_message_raises 0 d r Hr Hbad) as [e He].
    exists e. apply transform_loop_raises; [assumption|].
    intros idx. rewrite (transform_message_idx idx 0). exact He.
Qed.

Lemma one_bad_record_aborts_the_mapper_witness :
  exists e,
    result (transform_vapi_transcript
              (PList (example_messages ++
                      [PDict {[ "role" := PStr "user"; "duration" := PStr "500" ]}])))
    = Raised e.
Proof.
  destruct (one_bad_record_aborts_the_mapper example_messages
              (PDict {[ "role" := PStr "user"; "duration" := PStr "500" ]}) [])
    as [_ H].
  - repeat constructor; try (eexists; reflexivity); vm_compute; congruence.
  - apply (H {[ "role" := PStr "user"; "duration" := PStr "500" ]} "assistant").
    + reflexivity.
    + reflexivity.
    + left. reflexivity.
Defined.

Lemma transform_message_trace_skip idx d :
  coval_role_of (role_of d) = None ->
  trace (transform_message idx (PDict d)) = [skip_line idx (role_of d)].
Proof.
  intros H. unfold transform_message, py_get. rewrite !bind_ret.
  fold (role_of d). rewrite H. reflexivity.
Qed.

(** For a message record the loop body prints exactly one line. *)
Lemma transform_message_trace_one idx msg :
  message_record msg -> length (trace (transform_message idx msg)) = 1%nat.
Proof.
  intros [[d ->] Hwt]. destruct (coval_role_of (role_of d)) as [r|] eqn:Hr.
  - assert (Hrec : recognised (PDict d) = true).
    { unfold recognised. rewrite Hr. apply bool_decide_true. eauto. }
    apply Hwt, well_typed_fields in Hrec as (Hm & [s Hs] & [dur Hd]).
    unfold transform_message, py_get. rewrite !bind_ret.
    fold (role_of d) (message_of d) (offset_of d) (duration_of d). rewrite Hr.
    rewrite !bind_ret. unfold py_truediv, py_add.
    rewrite (to_float_number _ _ Hd), bind_ret.
    change (float_is_zero (float_of_Z 1000)) with false. cbv iota.
    rewrite bind_ret, (to_float_number _ _ Hs), !bind_ret.
    rewrite py_contains_dict, bind_ret, (py_slice_sliced _ 50 Hm). unfold py_getitem.
    destruct (d !! "time"); rewrite !bind_ret; reflexivity.
  - rewrite (transform_message_trace_skip _ _ Hr). reflexivity.
Qed.

Lemma transform_loop_log msgs :
  Forall message_record msgs ->
  forall idx acc,
    length (trace (transform_loop idx msgs acc)) = length msgs /\
    (forall (k : nat) d,
       msgs !! k = Some (PDict d) -> recognised (PDict d) = false ->
       In (skip_line (idx + Z.of_nat k) (role_of d)) (trace (transform_loop idx msgs acc))).
Proof.
  induction 1 as [|m msgs Hm _ IH]; intros idx acc.
  - split; [reflexivity|]. intros k d Hk. discriminate Hk.
  - cbn [transform_loop]. rewrite trace_bind.
    pose proof (transform_message_record idx m Hm) as Hb.
    pose proof (transform_message_trace_one idx m Hm) as Hone.
    assert (Hnext : exists acc',
              trace (transform_loop idx (m :: msgs) acc) =
                (trace (transform_message idx m) ++
                 trace (transform_loop (idx + 1) msgs acc'))%list).
    { cbn [transform_loop]. rewrite trace_bind. destruct (recognised m).
      - destruct Hb as [e ->]. eexists. reflexivity.
      - rewrite Hb. eexists. reflexivity. }
    destruct Hnext as [acc' Hnext]. cbn [transform_loop] in Hnext.
    rewrite trace_bind in Hnext. rewrite Hnext.
    destruct (IH (idx + 1) acc') as [IHlen IHin].
    split.
    + rewrite length_app, Hone, IHlen. reflexivity.
    + intros k d Hk Hrec. apply in_or_app. destruct k as [|k].
      * left. injection Hk as ->.
        assert (Hr : coval_role_of (role_of d) = None).
        { unfold recognised in Hrec. apply bool_decide_eq_false in Hrec.
          destruct (coval_role_of _); [exfalso; eauto | reflexivity]. }
        rewrite (transform_message_trace_skip _ _ Hr), Z.add_0_r. left. reflexivity.
      * right. cbn in Hk. specialize (IHin k d Hk Hrec).
        replace (idx + Z.of_nat (S k)) with (idx + 1 + Z.of_nat k) by lia.
        exact IHin.
Qed.

(** X19. For a sequence of message records the mapper prints one line per
    record between its heading and its summary; the line of a record it
    skips names the record's position, counted from 0, and its role; the
    summary gives the number of entries returned. *)
Theorem mapper_reports_every_record msgs :
  Forall message_record msgs ->
  let out := transform_vapi_transcript (PList msgs) in
  exists ts,
    result out = Done ts /\
    length (trace out) = (length msgs + 2)%nat /\
    last (trace out) = Some (summary_line ts) /\
    (forall (k : nat) d,
       msgs !! k = Some (PDict d) -> recognised (PDict d) = false ->
       In (skip_line (Z.of_nat k) (role_of d)) (trace out)).
Proof.
  intros Hrec. cbv zeta.
  destruct (transform_loop_total msgs Hrec 0 []) as [ts Hts].
  destruct (transform_loop_log msgs Hrec 0 []) as [Hlen Hin].
  exists ts. split; [rewrite transform_vapi_transcript_result; exact Hts|].
  unfold transform_vapi_transcript, py_iter.
  rewrite trace_print, bind_ret, trace_bind, Hts, trace_print, trace_ret.
  split; [|split].
  - cbn [length]. rewrite length_app, Hlen. cbn [length]. lia.
  - rewrite app_comm_cons. apply last_snoc.
  - intros k d Hk Hr. right. apply in_or_app. left. exact (Hin k d Hk Hr).
Qed.

Lemma mapper_reports_every_record_witness :
  let out := transform_vapi_transcript (PList example_messages) in
  exists ts,
    result out = Done ts /\
    length (trace out) = 5%nat /\
    last (trace out) = Some (summary_line ts) /\
    In (skip_line 2 (PStr "alien")) (trace out).
Proof.
  destruct (mapper_reports_every_record example_messages) as (ts & Hts & Hlen & Hlast & Hin).
  - repeat constructor; try (eexists; reflexivity); vm_compute; congruence.
  - exists ts. split; [exact Hts|]. split; [exact Hlen|]. split; [exact Hlast|].
    exact (Hin 2%nat {[ "role" := PStr "alien"; "message" := PStr "?" ]} eq_refl eq_refl).
Defined.

End VapiUploadFacts.
